(** * Latent-variable sequence model (SVG): a shallow embedding

    This development embeds the core of the repository in Rocq:

    - [lib/modules/latent_variables/fully_connected.py]
      ([FullyConnectedLatentVariable]),
    - [lib/models/svg.py] ([SVG]),
    - [util/train_val.py] ([train], [validate]).

    Python objects are records, mutation is explicit state passing in a
    small state-and-exception monad, exceptions are values of [exn].

    Tensors are a shape together with row-major data.  Scalars are real
    numbers: float32 rounding, overflow and NaN are outside the tensor
    model (the training objective, where NaN matters, has its own scalar
    type [fval]).  The autograd graph is not represented: [detach] and
    [.data.clone()] are the identity on values, a backward pass is a
    recorded call, and [approx_posterior_gradients], which only reads
    gradients, has no counterpart.

    Code of the repository that the three files above use but that is not
    among them is modelled from the specification (such definitions say
    so) or taken as a parameter (the classes [Learned], [Sampling],
    [Networks] and [Inherited]). *)

From Stdlib Require Import Reals Lra Lia List String Ascii ZArith Bool.
From stdpp Require Import base gmap strings list.

Set Implicit Arguments.
Unset Strict Implicit.

(** ** Exceptions and results *)

Inductive exn : Type :=
| AttributeError (name : string)
| TypeError (msg : string)
| KeyError (key : string)
| ValueError (msg : string)
| IndexError
| RuntimeError (msg : string)
| NotImplementedError
| AssertionError (msg : string)
| Exception (msg : string)
| BdbQuit.

Inductive result (A : Type) : Type :=
| Ok (a : A)
| Raise (e : exn).
Arguments Ok {A} a.
Arguments Raise {A} e.

Definition rbind {A B} (r : result A) (k : A -> result B) : result B :=
  match r with
  | Ok a => k a
  | Raise e => Raise e
  end.

Definition is_ok {A} (r : result A) : bool :=
  match r with Ok _ => true | Raise _ => false end.

(** A computation over a mutable state [S]: the state survives an
    exception, as the fields of a Python object do. *)
Definition M (S A : Type) : Type := S -> result A * S.

Definition ret {S A} (a : A) : M S A := fun s => (Ok a, s).

Definition raise {S A} (e : exn) : M S A := fun s => (Raise e, s).

Definition bind {S A B} (m : M S A) (k : A -> M S B) : M S B :=
  fun s =>
    match m s with
    | (Ok a, s') => k a s'
    | (Raise e, s') => (Raise e, s')
    end.

Definition get {S} : M S S := fun s => (Ok s, s).

Definition put {S} (s : S) : M S unit := fun _ => (Ok tt, s).

Definition modify {S} (f : S -> S) : M S unit := fun s => (Ok tt, f s).

Definition lift {S A} (r : result A) : M S A := fun s => (r, s).

(** Run a computation on a component of the state (a field of the
    object), writing the component back afterwards. *)
Definition zoom {S T A} (proj : S -> T) (upd : T -> S -> S) (m : M T A) : M S A :=
  fun s => let (r, t') := m (proj s) in (r, upd t' s).

Declare Scope py_scope.
Delimit Scope py_scope with py.
Notation "x <- m ;; k" := (bind m (fun x => k))
  (at level 100, m at next level, right associativity) : py_scope.
Notation "m ;; k" := (bind m (fun _ => k))
  (at level 100, right associativity) : py_scope.
Notation "x <-- r ;; k" := (rbind r (fun x => k))
  (at level 100, r at next level, right associativity) : py_scope.
Open Scope py_scope.

Fixpoint mapM_result {A B} (f : A -> result B) (l : list A) : result (list B) :=
  match l with
  | [] => Ok []
  | x :: l' => y <-- f x ;; ys <-- mapM_result f l' ;; Ok (y :: ys)
  end.

Fixpoint mapM_option {A B} (f : A -> option B) (l : list A) : option (list B) :=
  match l with
  | [] => Some []
  | x :: l' =>
      match f x, mapM_option f l' with
      | Some y, Some ys => Some (y :: ys)
      | _, _ => None
      end
  end.

(** [for x in l: body x] *)
Fixpoint for_each {S A} (l : list A) (body : A -> M S unit) : M S unit :=
  match l with
  | [] => ret tt
  | x :: l' => body x ;; for_each l' body
  end.

(** [enumerate(l)] *)
Definition enumerate {A} (l : list A) : list (nat * A) :=
  combine (seq 0 (length l)) l.

(** ** Tensors *)

Module Tensor.

Record tensor : Type := mk { shape : list nat; data : list R }.

Definition numel_of (s : list nat) : nat := fold_right Nat.mul 1 s.



Definition tabulate {A} (n : nat) (f : nat -> A) : list A := map f (seq 0 n).

Definition Rsum (n : nat) (f : nat -> R) : R :=
  fold_right Rplus 0%R (tabulate n f).

(** Entry at flat (row-major) position [i]. *)
Definition at_flat (t : tensor) (i : nat) : R := nth i (data t) 0%R.

Definition zeros (s : list nat) : tensor := mk s (repeat 0%R (numel_of s)).

Definition all_zero (t : tensor) : Prop := Forall (fun x => x = 0%R) (data t).

Definition tmap (f : R -> R) (t : tensor) : tensor :=
  mk (shape t) (map f (data t)).

(** [t.detach()], [t.data.clone()]: the same values, cut from the graph. *)
Definition detach (t : tensor) : tensor := t.
Definition clone (t : tensor) : tensor := t.

(** [t.view(sizes)]; a size of [-1] is inferred from the others. *)
Definition view (t : tensor) (sizes : list Z) : result tensor :=
  let n := length (data t) in
  let known := List.filter (fun z => negb (z =? -1)%Z) sizes in
  let holes := (length sizes - length known)%nat in
  if existsb (fun z => (z <? -1)%Z) sizes then
    Raise (RuntimeError "invalid shape dimension")
  else
    let k := numel_of (map Z.to_nat known) in
    match holes with
    | 0%nat =>
        if (k =? n)%nat then Ok (mk (map Z.to_nat sizes) (data t))
        else Raise (RuntimeError "shape is invalid for input size")
    | 1%nat =>
        if (k =? 0)%nat then
          Raise (RuntimeError "cannot infer the unspecified dimension")
        else if (n mod k =? 0)%nat then
          Ok (mk (map (fun z => if (z =? -1)%Z then (n / k)%nat else Z.to_nat z) sizes)
                 (data t))
        else Raise (RuntimeError "shape is invalid for input size")
    | _ => Raise (RuntimeError "only one dimension can be inferred")
    end.

(** [t.unsqueeze(d)]: a new dimension of size one at position [d]. *)
Definition unsqueeze (t : tensor) (d : nat) : result tensor :=
  if (d <=? length (shape t))%nat then
    Ok (mk (firstn d (shape t) ++ 1%nat :: skipn d (shape t)) (data t))
  else Raise (RuntimeError "dimension out of range").

(** The three factors of a shape around dimension [d]. *)
Definition outer_of (s : list nat) (d : nat) : nat := numel_of (firstn d s).
Definition inner_of (s : list nat) (d : nat) : nat := numel_of (skipn (S d) s).
Definition size_at (s : list nat) (d : nat) : nat := nth d s 0%nat.

(** [t.mean(dim=d)]: average over dimension [d], which is removed.  (Over
    a dimension of size zero the floating-point result is NaN, which the
    real numbers do not have.) *)
Definition mean_dim (t : tensor) (d : nat) : result tensor :=
  if (d <? length (shape t))%nat then
    let n := size_at (shape t) d in
    let inner := inner_of (shape t) d in
    let outer := outer_of (shape t) d in
    Ok (mk (firstn d (shape t) ++ skipn (S d) (shape t))
           (tabulate (outer * inner) (fun i =>
              (Rsum n (fun k =>
                 at_flat t (((i / inner) * n + k) * inner + i mod inner)) / INR n)%R)))
  else Raise (RuntimeError "dimension out of range").

(** [t.narrow(d, start, len)], the slice [start : start + len] of
    dimension [d]. *)
Definition narrow (t : tensor) (d start len : nat) : tensor :=
  let n := size_at (shape t) d in
  let inner := inner_of (shape t) d in
  let outer := outer_of (shape t) d in
  mk (firstn d (shape t) ++ len :: skipn (S d) (shape t))
     (tabulate (outer * len * inner) (fun i =>
        at_flat t (((i / (len * inner)) * n + start + (i / inner) mod len) * inner
                   + i mod inner))).

(** [t\[:, :k, :, :\]] and [t\[:, k:, :, :\]] on a tensor of at least four
    dimensions; Python clamps the bound to the size of the dimension. *)
Definition slice_dim1_to (t : tensor) (k : nat) : result tensor :=
  if (4 <=? length (shape t))%nat then
    Ok (narrow t 1 0 (Nat.min k (size_at (shape t) 1)))
  else Raise IndexError.

Definition slice_dim1_from (t : tensor) (k : nat) : result tensor :=
  if (4 <=? length (shape t))%nat then
    let n := size_at (shape t) 1 in
    Ok (narrow t 1 (Nat.min k n) (n - Nat.min k n))
  else Raise IndexError.

(** [torch.cat(\[a, b\], dim=d)] *)
Definition cat (a b : tensor) (d : nat) : result tensor :=
  let sa := shape a in
  let sb := shape b in
  if (d <? length sa)%nat
     && (length sa =? length sb)%nat
     && bool_decide (firstn d sa = firstn d sb)
     && bool_decide (skipn (S d) sa = skipn (S d) sb) then
    let na := size_at sa d in
    let nb := size_at sb d in
    let inner := inner_of sa d in
    let outer := outer_of sa d in
    Ok (mk (firstn d sa ++ (na + nb)%nat :: skipn (S d) sa)
           (tabulate (outer * (na + nb) * inner) (fun i =>
              let o := (i / ((na + nb) * inner))%nat in
              let j := ((i / inner) mod (na + nb))%nat in
              let r := (i mod inner)%nat in
              if (j <? na)%nat then at_flat a ((o * na + j) * inner + r)
              else at_flat b ((o * nb + (j - na)) * inner + r))))
  else Raise (RuntimeError "sizes of tensors must match except in the cat dimension").

(** [t.repeat(n, 1, 1, 1)]: a tensor of fewer than four dimensions gets
    leading dimensions of size one; the first dimension is repeated [n]
    times. *)
Definition repeat0 (t : tensor) (n : nat) : result tensor :=
  if (length (shape t) <=? 4)%nat then
    let s := repeat 1%nat (4 - length (shape t)) ++ shape t in
    Ok (mk ((n * hd 1%nat s)%nat :: tl s) (concat (repeat (data t) n)))
  else Raise (RuntimeError "number of dimensions of repeat dims can not be smaller").

(** *** Broadcasting element-wise operations *)

(** [n] consecutive chunks of [k] entries. *)
Fixpoint chunks (k n : nat) (l : list R) : list (list R) :=
  match n with
  | O => []
  | S n' => firstn k l :: chunks k n' (skipn k l)
  end.

(** Shapes are aligned at their last dimension; a missing or size-one
    dimension is stretched. *)
Fixpoint broadcast_rev (r1 r2 : list nat) : option (list nat) :=
  match r1, r2 with
  | [], _ => Some r2
  | _, [] => Some r1
  | d1 :: r1', d2 :: r2' =>
      match broadcast_rev r1' r2' with
      | None => None
      | Some r =>
          if (d1 =? d2)%nat then Some (d1 :: r)
          else if (d1 =? 1)%nat then Some (d2 :: r)
          else if (d2 =? 1)%nat then Some (d1 :: r)
          else None
      end
  end.

Definition broadcast_shape (s1 s2 : list nat) : option (list nat) :=
  option_map (@rev nat) (broadcast_rev (rev s1) (rev s2)).

(** Data of a tensor of shape [src] stretched to shape [dst] of the same
    rank. *)
Fixpoint expand_data (src dst : list nat) (l : list R) : option (list R) :=
  match src, dst with
  | [], [] => Some l
  | d :: src', D :: dst' =>
      match mapM_option (expand_data src' dst') (chunks (numel_of src') d l) with
      | None => None
      | Some parts =>
          if (d =? D)%nat then Some (concat parts)
          else if (d =? 1)%nat then Some (concat (repeat (concat parts) D))
          else None
      end
  | _, _ => None
  end.

Definition expand (t : tensor) (dst : list nat) : option (list R) :=
  let pad := repeat 1%nat (length dst - length (shape t)) in
  expand_data (pad ++ shape t) dst (data t).

Definition binop (f : R -> R -> R) (a b : tensor) : result tensor :=
  match broadcast_shape (shape a) (shape b) with
  | None => Raise (RuntimeError "the size of the tensors must match")
  | Some s =>
      match expand a s, expand b s with
      | Some da, Some db => Ok (mk s (zip_with f da db))
      | _, _ => Raise (RuntimeError "the size of the tensors must match")
      end
  end.

Definition add : tensor -> tensor -> result tensor := binop Rplus.
Definition mul : tensor -> tensor -> result tensor := binop Rmult.

(** [c - t] and [t - c] for a Python number [c]. *)
Definition rsub_scalar (c : R) (t : tensor) : tensor := tmap (fun x => (c - x)%R) t.
Definition sub_scalar (t : tensor) (c : R) : tensor := tmap (fun x => (x - c)%R) t.

End Tensor.

Import Tensor.

(** ** External collaborators

    The learned values of the parameters, the random number generator and
    the convolutional and recurrent networks are pluggable components of
    the repository: they are taken as parameters of the development. *)

(** A parameter object ([torch.nn.Parameter]) is known by its identity. *)
Definition param : Type := nat.

(** Values held by the parameters of the fully-connected layers: entry
    [(j, k)] of a weight matrix and entry [j] of a bias vector. *)
Class Learned : Type := {
  weight : param -> nat -> nat -> R;
  bias : param -> nat -> R
}.

(** [randn k s] is the standard-normal noise of shape [s] drawn when the
    generator has already been used [k] times; [expand_samples n t]
    broadcasts a sample to [n] samples; [reset_shape] is the shape of the
    zero tensor that [Normal.re_init] installs; [default_resample] is the
    default of the [resample] argument of [Normal.sample]. *)
Class Sampling : Type := {
  randn : nat -> list nat -> tensor;
  expand_samples : nat -> tensor -> tensor;
  reset_shape : list nat;
  default_resample : bool
}.

(** An object together with the state of the global random generator. *)
Record world (O : Type) : Type := World { obj : O; rng : nat }.
Arguments World {O} obj rng.

Definition self {O} : M (world O) O := fun w => (Ok (obj w), w).

Definition set_self {O} (o : O) : M (world O) unit :=
  fun w => (Ok tt, World o (rng w)).

(** Call a method of the attribute [proj] of the object. *)
Definition on_attr {O T A} (proj : O -> T) (upd : T -> O -> O)
    (m : M (world T) A) : M (world O) A :=
  zoom (fun w => World (proj (obj w)) (rng w))
       (fun w' w => World (upd (obj w') (obj w)) (rng w')) m.

(** Construction of modules allocates parameter objects; the state is the
    next unused identity. *)
Definition fresh : M nat param := fun c => (Ok c, S c).

Definition fresh_list (n : nat) : M nat (list param) :=
  fun c => (Ok (seq c n), (c + n)%nat).

(** ** Fully-connected layer *)

Module FullyConnectedLayer.

(** The values of the ['non_linearity'] entry of a layer configuration
    that the sources use; [linear] stands for its absence. *)
Inductive non_linearity : Type := linear | sigmoid | tanh.

(** Modelled from the spec: the non-linearities, the sigmoid taking its
    values between 0 and 1. *)
Definition activation (nl : non_linearity) (x : R) : R :=
  match nl with
  | linear => x
  | sigmoid => (/ (1 + exp (- x)))%R
  | tanh => Rtrigo_def.tanh x
  end.

(** Modelled from the spec: [lib.modules.layers.FullyConnectedLayer] is
    not part of the sources.  It is a learned projection from [n_in] to
    [n_out] features followed by an optional non-linearity; it owns a
    weight and a bias parameter. *)
Record t : Type := mk {
  n_in : nat;
  n_out : nat;
  non_lin : non_linearity;
  weight_param : param;
  bias_param : param
}.

(** Modelled from the spec: [FullyConnectedLayer(config)] creates the two
    parameter objects of the layer. *)
Definition new (n_in n_out : nat) (nl : non_linearity) : M nat t :=
  w <- fresh ;;
  b <- fresh ;;
  ret (mk n_in n_out nl w b).

(** Modelled from the spec: [layer.parameters()]. *)
Definition parameters (l : t) : list param := [weight_param l; bias_param l].

Section Forward.
Context {learned : Learned}.

(** Modelled from the spec: the layer applied to a tensor whose last
    dimension has size [n_in]. *)
Definition forward (l : t) (x : tensor) : result tensor :=
  match rev (shape x) with
  | k :: lead =>
      if (k =? n_in l)%nat then
        let rows := numel_of (rev lead) in
        Ok (Tensor.mk (rev lead ++ [n_out l])
              (tabulate (rows * n_out l) (fun i =>
                 let r := (i / n_out l)%nat in
                 let j := (i mod n_out l)%nat in
                 activation (non_lin l)
                   (Rsum (n_in l) (fun k =>
                      weight (weight_param l) j k * at_flat x (r * n_in l + k))
                    + bias (bias_param l) j)%R)))
      else Raise (RuntimeError "size mismatch")
  | [] => Raise (RuntimeError "size mismatch")
  end.

End Forward.

End FullyConnectedLayer.

(** ** Normal distribution *)

Module Normal.

(** Modelled from the spec: [lib.distributions.Normal] is not part of the
    sources.  It holds a mean and a log-variance, unset until assigned,
    and the noise of the last reparameterised draw. *)
Record t : Type := mk {
  mean : option tensor;
  log_var : option tensor;
  noise : option tensor
}.

(** Modelled from the spec: [Normal()], nothing set yet. *)
Definition new : t := mk None None None.

(** Modelled from the spec: assignment to the attributes [mean] and
    [log_var], as a function and as a statement ([d.mean = m],
    [d.log_var = v]); the stored noise stays. *)
Definition set_mean (m : tensor) (d : t) : t := mk (Some m) (log_var d) (noise d).
Definition set_log_var (v : tensor) (d : t) : t := mk (mean d) (Some v) (noise d).

Definition assign_mean (m : tensor) : M (world t) unit :=
  fun w => (Ok tt, World (set_mean m (obj w)) (rng w)).
Definition assign_log_var (v : tensor) : M (world t) unit :=
  fun w => (Ok tt, World (set_log_var v (obj w)) (rng w)).

Section Ops.
Context {sampling : Sampling}.

(** Modelled from the spec: [re_init(mean=None, log_var=None)] resets the
    stored noise and sets mean and log-variance to the supplied values or
    to zeros. *)
Definition re_init_value (mean_value log_var_value : option tensor) : t :=
  mk (Some (default (zeros reset_shape) mean_value))
     (Some (default (zeros reset_shape) log_var_value))
     None.

(** Modelled from the spec: [d.re_init(mean, log_var)] as a statement. *)
Definition re_init (mean_value log_var_value : option tensor) : M (world t) unit :=
  set_self (re_init_value mean_value log_var_value).

(** Modelled from the spec: fresh noise of shape [s], kept for later
    draws. *)
Definition draw (s : list nat) : M (world t) tensor :=
  fun w =>
    let e := randn (rng w) s in
    (Ok e, World (mk (mean (obj w)) (log_var (obj w)) (Some e)) (S (rng w))).

(** Modelled from the spec: [sample(n_samples, resample)] is the
    reparameterised draw [mean + exp(0.5 * log_var) * noise]; the stored
    noise is reused when [resample] is false and its shape matches,
    otherwise fresh noise is drawn and stored.  Sampling with an unset
    mean or log-variance fails. *)
Definition sample (n_samples : nat) (resample : bool) : M (world t) tensor :=
  d <- self ;;
  match mean d, log_var d with
  | Some m, Some v =>
      eps <- (match noise d with
              | Some e =>
                  if negb resample && bool_decide (shape e = shape m)
                  then ret e
                  else draw (shape m)
              | None => draw (shape m)
              end) ;;
      se <- lift (mul (tmap (fun x => exp (0.5 * x)) v) eps) ;;
      s <- lift (add m se) ;;
      ret (expand_samples n_samples s)
  | _, _ => raise (TypeError "mean or log_var is None")
  end.

End Ops.

End Normal.

(** ** Fully-connected latent variable
    ([lib/modules/latent_variables/fully_connected.py]) *)

Module FullyConnectedLatentVariable.

(** The entries of the [latent_config] dictionary. *)
Record latent_config : Type := {
  cfg_inference_procedure : string;
  cfg_n_variables : nat;
  cfg_n_in : nat * nat
}.

(** The gate layers exist only when the inference procedure is not
    ['direct']: reading the attribute otherwise is an [AttributeError]. *)
Record t : Type := mk {
  inference_procedure : string;
  approx_post_mean : FullyConnectedLayer.t;
  approx_post_log_var : FullyConnectedLayer.t;
  approx_post_mean_gate : option FullyConnectedLayer.t;
  approx_post_log_var_gate : option FullyConnectedLayer.t;
  prior_mean : FullyConnectedLayer.t;
  prior_log_var : FullyConnectedLayer.t;
  approx_post : Normal.t;
  prior : Normal.t
}.

Definition set_approx_post (d : Normal.t) (lv : t) : t :=
  mk (inference_procedure lv) (approx_post_mean lv) (approx_post_log_var lv)
     (approx_post_mean_gate lv) (approx_post_log_var_gate lv)
     (prior_mean lv) (prior_log_var lv) d (prior lv).

Definition set_prior (d : Normal.t) (lv : t) : t :=
  mk (inference_procedure lv) (approx_post_mean lv) (approx_post_log_var lv)
     (approx_post_mean_gate lv) (approx_post_log_var_gate lv)
     (prior_mean lv) (prior_log_var lv) (approx_post lv) d.

Definition on_approx_post {A} (m : M (world Normal.t) A) : M (world t) A :=
  on_attr approx_post set_approx_post m.

Definition on_prior {A} (m : M (world Normal.t) A) : M (world t) A :=
  on_attr prior set_prior m.

(** Reading an attribute that may be unset. *)
Definition attr {S A} (name : string) (o : option A) : M S A :=
  match o with
  | Some a => ret a
  | None => raise (AttributeError name)
  end.

Definition is_direct (procedure : string) : bool := String.eqb procedure "direct".

Section Methods.
Context {learned : Learned} {sampling : Sampling}.

Definition _construct (latent_config : latent_config) : M nat t :=
  let inference_procedure := cfg_inference_procedure latent_config in
  let n_variables := cfg_n_variables latent_config in
  let n_inputs := cfg_n_in latent_config in
  approx_post_mean <-
    FullyConnectedLayer.new (fst n_inputs) n_variables FullyConnectedLayer.linear ;;
  approx_post_log_var <-
    FullyConnectedLayer.new (fst n_inputs) n_variables FullyConnectedLayer.linear ;;
  gates <-
    (if negb (is_direct inference_procedure) then
       mean_gate <-
         FullyConnectedLayer.new (fst n_inputs) n_variables FullyConnectedLayer.sigmoid ;;
       log_var_gate <-
         FullyConnectedLayer.new (fst n_inputs) n_variables FullyConnectedLayer.sigmoid ;;
       ret (Some mean_gate, Some log_var_gate)
     else ret (None, None)) ;;
  prior_mean <-
    FullyConnectedLayer.new (snd n_inputs) n_variables FullyConnectedLayer.linear ;;
  prior_log_var <-
    FullyConnectedLayer.new (snd n_inputs) n_variables FullyConnectedLayer.linear ;;
  ret (mk inference_procedure approx_post_mean approx_post_log_var
          (fst gates) (snd gates) prior_mean prior_log_var
          (Normal.re_init_value None None) (Normal.re_init_value None None)).

(** [gate * old.detach() + (1 - gate) * candidate] *)
Definition blend (gate old candidate : tensor) : result tensor :=
  kept <-- mul gate (detach old) ;;
  fresh_part <-- mul (rsub_scalar 1 gate) candidate ;;
  add kept fresh_part.

Definition infer (input : tensor) : M (world t) tensor :=
  lv <- self ;;
  new_mean <- lift (FullyConnectedLayer.forward (approx_post_mean lv) input) ;;
  new_log_var <- lift (FullyConnectedLayer.forward (approx_post_log_var lv) input) ;;
  (if is_direct (inference_procedure lv) then
     on_approx_post (Normal.assign_mean new_mean) ;;
     on_approx_post (Normal.assign_log_var new_log_var)
   else
     mean_gate_layer <- attr "approx_post_mean_gate" (approx_post_mean_gate lv) ;;
     mean_gate <- lift (FullyConnectedLayer.forward mean_gate_layer input) ;;
     old_mean <- attr "detach" (Normal.mean (approx_post lv)) ;;
     blended_mean <- lift (blend mean_gate old_mean new_mean) ;;
     on_approx_post (Normal.assign_mean blended_mean) ;;
     log_var_gate_layer <- attr "approx_post_log_var_gate" (approx_post_log_var_gate lv) ;;
     log_var_gate <- lift (FullyConnectedLayer.forward log_var_gate_layer input) ;;
     old_log_var <- attr "detach" (Normal.log_var (approx_post lv)) ;;
     blended_log_var <- lift (blend log_var_gate old_log_var new_log_var) ;;
     on_approx_post (Normal.assign_log_var blended_log_var)) ;;
  on_approx_post (Normal.sample 1 true).

Definition generate (input : option tensor) (gen : bool) (n_samples : nat)
    : M (world t) tensor :=
  (match input with
   | Some input =>
       match shape input with
       | [b; s; n] =>
           input <- lift (view input [Z.of_nat (b * s); Z.of_nat n]) ;;
           lv <- self ;;
           m <- lift (FullyConnectedLayer.forward (prior_mean lv) input) ;;
           m <- lift (view m [Z.of_nat b; Z.of_nat s; (-1)%Z]) ;;
           on_prior (Normal.assign_mean m) ;;
           v <- lift (FullyConnectedLayer.forward (prior_log_var lv) input) ;;
           v <- lift (view v [Z.of_nat b; Z.of_nat s; (-1)%Z]) ;;
           on_prior (Normal.assign_log_var v)
       | _ => raise (ValueError "wrong number of values to unpack")
       end
   | None => ret tt
   end) ;;
  if gen then on_prior (Normal.sample n_samples true)
  else on_approx_post (Normal.sample n_samples true).

Definition re_init_approx_posterior : M (world t) unit :=
  lv <- self ;;
  prior_mean <- attr "data" (Normal.mean (prior lv)) ;;
  mean <- lift (mean_dim (clone prior_mean) 1) ;;
  prior_log_var <- attr "data" (Normal.log_var (prior lv)) ;;
  log_var <- lift (mean_dim (clone prior_log_var) 1) ;;
  on_approx_post (Normal.re_init (Some mean) (Some log_var)).

Definition re_init : M (world t) unit :=
  re_init_approx_posterior ;;
  on_prior (Normal.re_init None None).

Definition step : M (world t) unit := ret tt.

Definition inference_parameters (lv : t) : result (list param) :=
  let params := [] in
  let params := params ++ FullyConnectedLayer.parameters (approx_post_mean lv) in
  let params := params ++ FullyConnectedLayer.parameters (approx_post_log_var lv) in
  if negb (is_direct (inference_procedure lv)) then
    match approx_post_mean_gate lv with
    | None => Raise (AttributeError "approx_post_mean_gate")
    | Some mean_gate =>
        let params := params ++ FullyConnectedLayer.parameters mean_gate in
        match approx_post_log_var_gate lv with
        | None => Raise (AttributeError "approx_post_log_var_gate")
        | Some log_var_gate =>
            Ok (params ++ FullyConnectedLayer.parameters log_var_gate)
        end
    end
  else Ok params.

Definition generative_parameters (lv : t) : result (list param) :=
  let params := [] in
  let params := params ++ FullyConnectedLayer.parameters (prior_mean lv) in
  let params := params ++ FullyConnectedLayer.parameters (prior_log_var lv) in
  Ok params.

Definition approx_posterior_parameters (lv : t) : result (list tensor) :=
  match Normal.mean (approx_post lv), Normal.log_var (approx_post lv) with
  | Some m, Some v => Ok [detach m; detach v]
  | _, _ => Raise (AttributeError "detach")
  end.

End Methods.

End FullyConnectedLatentVariable.

(** ** Convolutional and recurrent networks *)

(** The encoder and decoder architectures that [SVG] selects. *)
Inductive backbone : Type := dcgan | vgg16.

(** The networks of [lib.modules.networks] are external: the number of
    parameter objects each one owns and what each one computes are
    parameters.  [lstm_state] is the hidden state of an [LSTMNetwork]. *)
Class Networks : Type := {
  encoder_size : backbone -> nat -> nat -> nat;
  decoder_size : backbone -> nat -> nat -> nat;
  lstm_size : nat -> nat -> nat -> nat;
  encoder_forward : backbone -> list param -> tensor -> result (tensor * list tensor);
  decoder_forward : backbone -> list param -> tensor * list tensor -> result tensor;
  lstm_state : Type;
  lstm_initial : lstm_state;
  lstm_forward : list param -> lstm_state -> tensor -> result (tensor * lstm_state);
  lstm_step : lstm_state -> lstm_state;
  lstm_re_init : lstm_state -> lstm_state
}.

(** An encoder or a decoder: its architecture and its parameters. *)
Record conv_net : Type := ConvNet { arch : backbone; conv_params : list param }.

Module LSTMNetwork.
Section Defs.
Context {networks : Networks}.

Record t : Type := mk { parameters : list param; hidden : lstm_state }.

(** [LSTMNetwork({'n_layers': .., 'n_units': .., 'n_in': ..})] *)
Definition new (n_layers n_units n_in : nat) : M nat t :=
  ps <- fresh_list (lstm_size n_layers n_units n_in) ;;
  ret (mk ps lstm_initial).

Definition forward (x : tensor) : M (world t) tensor :=
  net <- self ;;
  out <- lift (lstm_forward (parameters net) (hidden net) x) ;;
  set_self (mk (parameters net) (snd out)) ;;
  ret (fst out).

Definition step : M (world t) unit :=
  net <- self ;;
  set_self (mk (parameters net) (lstm_step (hidden net))).

Definition re_init : M (world t) unit :=
  net <- self ;;
  set_self (mk (parameters net) (lstm_re_init (hidden net))).

End Defs.
End LSTMNetwork.

(** ** Latent level *)

Module LSTMLatentLevel.
Section Defs.
Context {learned : Learned} {sampling : Sampling} {networks : Networks}.

(** Modelled from the spec: [lib.modules.latent_levels.LSTMLatentLevel] is
    not part of the sources.  A level owns one latent variable and the
    recurrent inference and generative networks, and delegates [infer],
    [generate], [step] and [re_init] to the latent variable while keeping
    the recurrent state. *)
Record t : Type := mk {
  inference_model : LSTMNetwork.t;
  generative_model : LSTMNetwork.t;
  latent : FullyConnectedLatentVariable.t
}.

Definition set_inference_model (n : LSTMNetwork.t) (l : t) : t :=
  mk n (generative_model l) (latent l).
Definition set_generative_model (n : LSTMNetwork.t) (l : t) : t :=
  mk (inference_model l) n (latent l).
Definition set_latent (v : FullyConnectedLatentVariable.t) (l : t) : t :=
  mk (inference_model l) (generative_model l) v.

Definition on_inference_model {A} (m : M (world LSTMNetwork.t) A) : M (world t) A :=
  on_attr inference_model set_inference_model m.
Definition on_generative_model {A} (m : M (world LSTMNetwork.t) A) : M (world t) A :=
  on_attr generative_model set_generative_model m.
Definition on_latent {A} (m : M (world FullyConnectedLatentVariable.t) A)
    : M (world t) A :=
  on_attr latent set_latent m.

(** The entries of the [level_config] dictionary: the sizes
    [(n_layers, n_units, n_in)] of the two recurrent networks and the
    configuration of the latent variable. *)
Record level_config : Type := {
  cfg_inference_procedure : string;
  cfg_inference_config : nat * nat * nat;
  cfg_generative_config : nat * nat * nat;
  cfg_latent_config : FullyConnectedLatentVariable.latent_config
}.

(** Modelled from the spec: construction of the two recurrent networks and
    of the latent variable. *)
Definition _construct (level_config : level_config) : M nat t :=
  let '(il, iu, ii) := cfg_inference_config level_config in
  let '(gl, gu, gi) := cfg_generative_config level_config in
  inference_model <- LSTMNetwork.new il iu ii ;;
  generative_model <- LSTMNetwork.new gl gu gi ;;
  latent <- FullyConnectedLatentVariable._construct (cfg_latent_config level_config) ;;
  ret (mk inference_model generative_model latent).

(** Modelled from the spec: the input passes through the recurrent
    inference network, then the latent variable infers. *)
Definition infer (input : tensor) : M (world t) tensor :=
  h <- on_inference_model (LSTMNetwork.forward input) ;;
  on_latent (FullyConnectedLatentVariable.infer h).

(** Modelled from the spec: a given input passes through the recurrent
    generative network; the latent variable generates. *)
Definition generate (input : option tensor) (gen : bool) (n_samples : nat)
    : M (world t) tensor :=
  match input with
  | Some x =>
      h <- on_generative_model (LSTMNetwork.forward x) ;;
      on_latent (FullyConnectedLatentVariable.generate (Some h) gen n_samples)
  | None => on_latent (FullyConnectedLatentVariable.generate None gen n_samples)
  end.

(** Modelled from the spec: the latent variable and the two recurrent
    networks step forward. *)
Definition step : M (world t) unit :=
  on_latent FullyConnectedLatentVariable.step ;;
  on_inference_model LSTMNetwork.step ;;
  on_generative_model LSTMNetwork.step.

(** Modelled from the spec: the latent variable and the two recurrent
    networks are re-initialised. *)
Definition re_init : M (world t) unit :=
  on_latent FullyConnectedLatentVariable.re_init ;;
  on_inference_model LSTMNetwork.re_init ;;
  on_generative_model LSTMNetwork.re_init.

(** Modelled from the spec: the partition of the level mirrors the one of
    the latent variable, the recurrent inference network on the inference
    side and the recurrent generative network on the generative side. *)
Definition inference_parameters (l : t) : result (list param) :=
  ps <-- FullyConnectedLatentVariable.inference_parameters (latent l) ;;
  Ok (LSTMNetwork.parameters (inference_model l) ++ ps).

Definition generative_parameters (l : t) : result (list param) :=
  ps <-- FullyConnectedLatentVariable.generative_parameters (latent l) ;;
  Ok (LSTMNetwork.parameters (generative_model l) ++ ps).

End Defs.
End LSTMLatentLevel.

(** ** Python values and strings *)

(** Values stored in a configuration dictionary. *)
Inductive pyval : Type :=
| VStr (s : string)
| VInt (z : Z)
| VNone.

(** [d\[key\]] *)
Definition getitem {S} (d : gmap string pyval) (key : string) : M S pyval :=
  match d !! key with
  | Some v => ret v
  | None => raise (KeyError key)
  end.

Definition lower_ascii (c : ascii) : ascii :=
  let n := nat_of_ascii c in
  if (65 <=? n)%nat && (n <=? 90)%nat then ascii_of_nat (n + 32) else c.

Fixpoint lower_string (s : string) : string :=
  match s with
  | EmptyString => EmptyString
  | String c s' => String (lower_ascii c) (lower_string s')
  end.

(** [v.lower()] *)
Definition lower {S} (v : pyval) : M S string :=
  match v with
  | VStr s => ret (lower_string s)
  | _ => raise (AttributeError "lower")
  end.

(** ** The SVG model ([lib/models/svg.py]) *)

Module SVG.
Section Defs.
Context {learned : Learned} {sampling : Sampling} {networks : Networks}.

Record t : Type := mk {
  inference_procedure : string;
  encoder : conv_net;
  decoder : conv_net;
  latent_levels : list LSTMLatentLevel.t;
  decoder_lstm : LSTMNetwork.t;
  decoder_lstm_output : FullyConnectedLayer.t;
  output_dist : Normal.t;
  _h : option tensor;
  _skip : option (list tensor);
  _prev_h : option tensor;
  _prev_skip : option (list tensor)
}.

Definition set_latent_levels (ls : list LSTMLatentLevel.t) (m : t) : t :=
  mk (inference_procedure m) (encoder m) (decoder m) ls (decoder_lstm m)
     (decoder_lstm_output m) (output_dist m) (_h m) (_skip m) (_prev_h m) (_prev_skip m).

Definition set_decoder_lstm (n : LSTMNetwork.t) (m : t) : t :=
  mk (inference_procedure m) (encoder m) (decoder m) (latent_levels m) n
     (decoder_lstm_output m) (output_dist m) (_h m) (_skip m) (_prev_h m) (_prev_skip m).

Definition set_output_dist (d : Normal.t) (m : t) : t :=
  mk (inference_procedure m) (encoder m) (decoder m) (latent_levels m) (decoder_lstm m)
     (decoder_lstm_output m) d (_h m) (_skip m) (_prev_h m) (_prev_skip m).

Definition set_h (h : option tensor) (skip : option (list tensor)) (m : t) : t :=
  mk (inference_procedure m) (encoder m) (decoder m) (latent_levels m) (decoder_lstm m)
     (decoder_lstm_output m) (output_dist m) h skip (_prev_h m) (_prev_skip m).

Definition set_prev_h (h : option tensor) (skip : option (list tensor)) (m : t) : t :=
  mk (inference_procedure m) (encoder m) (decoder m) (latent_levels m) (decoder_lstm m)
     (decoder_lstm_output m) (output_dist m) (_h m) (_skip m) h skip.

(** [self.latent_levels\[0\].method(...)] *)
Definition on_level0 {A} (m : M (world LSTMLatentLevel.t) A) : M (world t) A :=
  fun w =>
    match latent_levels (obj w) with
    | l :: ls =>
        let (r, w') := m (World l (rng w)) in
        (r, World (set_latent_levels (obj w' :: ls) (obj w)) (rng w'))
    | [] => (Raise IndexError, w)
    end.

Definition on_decoder_lstm {A} (m : M (world LSTMNetwork.t) A) : M (world t) A :=
  on_attr decoder_lstm set_decoder_lstm m.

Definition on_output_dist {A} (m : M (world Normal.t) A) : M (world t) A :=
  on_attr output_dist set_output_dist m.

Definition unknown_model_type (model_type : string) : string :=
  ("SVG model type must be one of 1) sm_mnist, 2) "
   ++ "                            kth_action, or 3) bair_robot_pushing. Invalid model "
   ++ "                            type: " ++ model_type ++ ".")%string.

(** [_construct]; [LatentVariableModel.__init__], which runs first, only
    records the configuration. *)
Definition _construct (model_config : gmap string pyval) : M nat t :=
  v <- getitem model_config "model_type" ;;
  model_type <- lower v ;;
  v <- getitem model_config "inference_procedure" ;;
  inference_procedure <- lower v ;;
  let level_config (n_variables : nat) :=
    {| LSTMLatentLevel.cfg_inference_procedure := "direct";
       LSTMLatentLevel.cfg_inference_config := (1, 256, 128)%nat;
       LSTMLatentLevel.cfg_generative_config := (1, 256, 128)%nat;
       LSTMLatentLevel.cfg_latent_config :=
         {| FullyConnectedLatentVariable.cfg_inference_procedure := "direct";
            FullyConnectedLatentVariable.cfg_n_variables := n_variables;
            FullyConnectedLatentVariable.cfg_n_in := (256, 256)%nat |} |} in
  parts <-
    (if String.eqb model_type "sm_mnist" then
       encoder <- fresh_list (encoder_size dcgan 128 1) ;;
       decoder <- fresh_list (decoder_size dcgan 128 1) ;;
       ret (ConvNet dcgan encoder, ConvNet dcgan decoder, 10%nat)
     else if String.eqb model_type "kth_actions" then
       encoder <- fresh_list (encoder_size vgg16 128 1) ;;
       decoder <- fresh_list (decoder_size vgg16 128 2) ;;
       ret (ConvNet vgg16 encoder, ConvNet vgg16 decoder, 32%nat)
     else if String.eqb model_type "bair_robot_pushing" then
       encoder <- fresh_list (encoder_size vgg16 128 3) ;;
       decoder <- fresh_list (decoder_size vgg16 128 6) ;;
       ret (ConvNet vgg16 encoder, ConvNet vgg16 decoder, 64%nat)
     else raise (Exception (unknown_model_type model_type))) ;;
  let '(encoder, decoder, n_variables) := parts in
  level <- LSTMLatentLevel._construct (level_config n_variables) ;;
  decoder_lstm <- LSTMNetwork.new 2 256 (128 + n_variables) ;;
  decoder_lstm_output <- FullyConnectedLayer.new 256 128 FullyConnectedLayer.tanh ;;
  ret (mk inference_procedure encoder decoder [level] decoder_lstm decoder_lstm_output
          Normal.new None None None None).

Definition _get_encoding_form (observation : tensor) : M (world t) tensor :=
  m <- self ;;
  if String.eqb (inference_procedure m) "direct" then
    ret (sub_scalar observation 0.5)
  else raise NotImplementedError.

(** [self.encoder(x)] *)
Definition encode (x : tensor) : M (world t) (tensor * list tensor) :=
  m <- self ;;
  lift (encoder_forward (arch (encoder m)) (conv_params (encoder m)) x).

Definition infer (observation : tensor) : M (world t) unit :=
  observation <- _get_encoding_form observation ;;
  hs <- encode observation ;;
  m <- self ;;
  set_self (set_h (Some (fst hs)) (Some (snd hs)) m) ;;
  m <- self ;;
  h <- FullyConnectedLatentVariable.attr "_h" (_h m) ;;
  on_level0 (LSTMLatentLevel.infer h) ;;
  ret tt.

Definition generate (gen : bool) (n_samples : nat) : M (world t) tensor :=
  m <- self ;;
  prev <- FullyConnectedLatentVariable.attr "data" (_prev_h m) ;;
  batch_size <- (match shape prev with
                 | b :: _ => ret b
                 | [] => raise IndexError
                 end) ;;
  prev_h <- lift (unsqueeze prev 1) ;;
  skips <- FullyConnectedLatentVariable.attr "__iter__" (_prev_skip m) ;;
  prev_skip <- lift (mapM_result (fun s => repeat0 s n_samples) skips) ;;
  z <- on_level0 (LSTMLatentLevel.generate None gen n_samples) ;;
  zh <- lift (cat z prev_h 2) ;;
  zh <- lift (view zh [Z.of_nat (batch_size * n_samples); (-1)%Z]) ;;
  g <- on_decoder_lstm (LSTMNetwork.forward zh) ;;
  g <- lift (FullyConnectedLayer.forward (decoder_lstm_output m) g) ;;
  output <- lift (decoder_forward (arch (decoder m)) (conv_params (decoder m))
                    (g, prev_skip)) ;;
  mean <- lift (slice_dim1_to output 3) ;;
  log_var <- lift (slice_dim1_from output 3) ;;
  on_output_dist (Normal.assign_mean mean) ;;
  on_output_dist (Normal.assign_log_var log_var) ;;
  on_output_dist (Normal.sample 1 default_resample).

Definition step : M (world t) unit :=
  on_level0 LSTMLatentLevel.step ;;
  on_decoder_lstm LSTMNetwork.step ;;
  m <- self ;;
  set_self (set_prev_h (_h m) (_skip m) m) ;;
  m <- self ;;
  set_self (set_h None None m) ;;
  m <- self ;;
  prev <- FullyConnectedLatentVariable.attr "unsqueeze" (_prev_h m) ;;
  x <- lift (unsqueeze prev 1) ;;
  on_level0 (LSTMLatentLevel.generate (Some x) true 1) ;;
  on_level0 (LSTMLatentLevel.on_latent
               FullyConnectedLatentVariable.re_init_approx_posterior).

(** *** Attribute lookup on an [SVG] instance *)

(** Names bound in the body of [class SVG]. *)
Definition class_names : list string :=
  ["__init__"; "_construct"; "_get_encoding_form"; "infer"; "generate"; "step";
   "re_init"; "inference_parameters"; "generative_parameters"].

(** Modelled from the spec: [LatentVariableModel], the base class, is not
    part of the sources; these are the operations of its interface. *)
Definition base_class_names : list string :=
  ["__init__"; "re_init"; "infer"; "generate"; "step"; "losses"; "free_energy";
   "inference_parameters"; "generative_parameters"; "inference_mode";
   "generative_mode"].

(** Public methods of [torch.nn.Module]. *)
Definition module_names : list string :=
  ["forward"; "parameters"; "named_parameters"; "children"; "modules"; "train";
   "eval"; "zero_grad"; "cuda"; "cpu"; "state_dict"; "load_state_dict"; "apply";
   "register_buffer"; "register_parameter"; "add_module"; "type"; "float";
   "double"; "half"].

(** Attributes assigned on the instance. *)
Definition instance_names : list string :=
  ["inference_procedure"; "encoder"; "decoder"; "latent_levels"; "decoder_lstm";
   "decoder_lstm_output"; "output_dist"; "_h"; "_skip"; "_prev_h"; "_prev_skip"].

Definition has_attribute (name : string) : bool :=
  existsb (String.eqb name)
    (instance_names ++ class_names ++ base_class_names ++ module_names).

(** [self.name], to be called with one tensor: the name is looked up in
    the instance and its classes, and an unbound name is an
    [AttributeError].  Of the names that resolve, only
    [_get_encoding_form] maps an observation to its encoding form; the
    others are not followed further. *)
Definition getattr (name : string) : M (world t) (tensor -> M (world t) tensor) :=
  if has_attribute name then
    if String.eqb name "_get_encoding_form" then ret _get_encoding_form
    else raise (TypeError "attribute is not an encoding method")
  else raise (AttributeError name).

(** [def re_init(self, input)]: called with [args]. *)
Definition re_init (args : list tensor) : M (world t) unit :=
  match args with
  | [input] =>
      on_level0 LSTMLatentLevel.re_init ;;
      on_decoder_lstm LSTMNetwork.re_init ;;
      m <- self ;;
      set_self (set_h None None m) ;;
      get_encoding_form <- getattr "get_encoding_form" ;;
      x <- get_encoding_form input ;;
      hs <- encode x ;;
      m <- self ;;
      set_self (set_prev_h (Some (fst hs)) (Some (snd hs)) m) ;;
      x <- lift (unsqueeze (fst hs) 1) ;;
      on_level0 (LSTMLatentLevel.generate (Some x) true 1) ;;
      on_level0 (LSTMLatentLevel.on_latent
                   FullyConnectedLatentVariable.re_init_approx_posterior)
  | _ => raise (TypeError "re_init() takes exactly 2 arguments")
  end.

Definition level0 (m : t) : result LSTMLatentLevel.t :=
  match latent_levels m with
  | l :: _ => Ok l
  | [] => Raise IndexError
  end.

Definition inference_parameters (m : t) : result (list param) :=
  let params := [] in
  let params := params ++ conv_params (encoder m) in
  l <-- level0 m ;;
  ps <-- LSTMLatentLevel.inference_parameters l ;;
  let params := params ++ ps in
  Ok params.

Definition generative_parameters (m : t) : result (list param) :=
  let params := [] in
  let params := params ++ conv_params (decoder m) in
  l <-- level0 m ;;
  ps <-- LSTMLatentLevel.generative_parameters l ;;
  let params := params ++ ps in
  let params := params ++ LSTMNetwork.parameters (decoder_lstm m) in
  Ok params.

End Defs.
End SVG.

(** ** Training and validation loops ([util/train_val.py]) *)

Module TrainVal.

(** A value of the training objective: a real number, an infinity or NaN,
    with the addition of IEEE arithmetic on these classes. *)
Inductive fval : Type := finite (x : R) | pos_inf | neg_inf | nan.

Definition fadd (a b : fval) : fval :=
  match a, b with
  | nan, _ | _, nan => nan
  | pos_inf, neg_inf | neg_inf, pos_inf => nan
  | pos_inf, _ | _, pos_inf => pos_inf
  | neg_inf, _ | _, neg_inf => neg_inf
  | finite x, finite y => finite (x + y)
  end.

Definition isnan (a : fval) : bool :=
  match a with nan => true | _ => false end.

(** [total_free_energy] starts as the Python float [0.] and becomes a
    tensor once a free energy has been added to it. *)
Inductive pynum : Type := py_float (x : fval) | variable (x : fval).

Definition value_of (t : pynum) : fval :=
  match t with py_float x | variable x => x end.

(** [t.data] *)
Definition data_of {S} (t : pynum) : M S fval :=
  match t with
  | variable x => ret x
  | py_float _ => raise (AttributeError "data")
  end.

(** The training and validation drivers see the model through its
    interface.  [model_diagnostics] stands for the reads of the output
    distribution and of the approximate posterior gradients that fill the
    logged arrays. *)
Class LatentVariableModel (S : Type) : Type := {
  model_train : M S unit;
  model_eval : M S unit;
  model_re_init : list tensor -> M S unit;
  model_inference_mode : M S unit;
  model_generative_mode : M S unit;
  model_infer : tensor -> M S unit;
  model_generate : bool -> nat -> M S tensor;
  model_losses : tensor -> M S (tensor * tensor * list tensor);
  model_free_energy : tensor -> M S fval;
  model_step : M S unit;
  model_diagnostics : M S unit
}.

Inductive optimizer : Type := inf_opt | gen_opt.

Inductive opt_method : Type :=
  zero_stored_grad | zero_current_grad | collect | opt_step.

(** The calls made by the drivers, in the order in which they complete.
    The optimizers and [backward] are external: a call to one of them is
    only recorded. *)
Inductive call : Type :=
| call_train | call_eval | call_re_init | call_inference_mode
| call_generative_mode | call_infer | call_generate | call_losses
| call_free_energy | call_step
| call_backward (retain_graph : bool)
| call_optimizer (o : optimizer) (m : opt_method)
| print_iteration (batch_ind n_batches : nat)
| print_nan
| set_trace.

(** What the user answers at the [ipdb] prompt. *)
Inductive debugger_command : Type := continue | quit.

Record run (S : Type) : Type := Run { model : S; calls : list call }.
Arguments Run {S} model calls.

Definition log {S} (c : call) : M (run S) unit :=
  fun r => (Ok tt, Run (model r) (calls r ++ [c])).

Definition on_model {S A} (m : M S A) : M (run S) A :=
  zoom (fun r => model r) (fun s r => Run s (calls r)) m.

Fixpoint foldM {S A B} (l : list A) (acc : B) (body : A -> B -> M S B) : M S B :=
  match l with
  | [] => ret acc
  | x :: l' => acc' <- body x acc ;; foldM l' acc' body
  end.

(** [for x in t], [t\[0\]], [t\[1:\]]: the slices of a tensor along its
    first dimension. *)
Definition unbind0 (t : tensor) : result (list tensor) :=
  match shape t with
  | d :: rest => Ok (map (Tensor.mk rest) (chunks (numel_of rest) d (data t)))
  | [] => Raise (TypeError "iteration over a 0-d tensor")
  end.

(** [t\[0\]] *)
Definition first_of (t : tensor) : result tensor :=
  match unbind0 t with
  | Ok (f :: _) => Ok f
  | _ => Raise IndexError
  end.

(** [t\[1:\]], to be iterated over. *)
Definition rest_of (t : tensor) : result (list tensor) :=
  match unbind0 t with
  | Ok fs => Ok (tl fs)
  | Raise _ => Raise IndexError
  end.

Section Drivers.
Context {S : Type} {model_ops : LatentVariableModel S}.

(** [data_config\['sequence_length'\]], [run_config\['inference_iterations'\]]
    and the answers given to the debugger, by batch. *)
Variable sequence_length : Z.
Variable inference_iterations : Z.
Variable ipdb : nat -> debugger_command.

Definition n_steps : Z := (sequence_length - 1)%Z.
Definition n_inf_iter : Z := inference_iterations.

(** [model.generate()], [model.losses(step_batch, averaged=False)],
    [free_energy.mean(dim=0).backward(retain_graph=True)] and the writes
    at column [step_ind] of the arrays of [n_steps] columns. *)
Definition evaluate (step_ind : nat) (step_batch : tensor) : M (run S) unit :=
  on_model (model_generate false 1) ;; log call_generate ;;
  losses <- on_model (model_losses step_batch) ;; log call_losses ;;
  log (call_backward true) ;;
  (if (Z.of_nat step_ind <? n_steps)%Z then ret tt else raise IndexError) ;;
  (match snd losses with [] => raise IndexError | _ :: _ => ret tt end) ;;
  on_model model_diagnostics.

(** The body of the loop over sequence steps. *)
Definition train_step (step_ind : nat) (step_batch : tensor)
    (total_free_energy : pynum) : M (run S) pynum :=
  on_model model_inference_mode ;; log call_inference_mode ;;
  log (call_optimizer inf_opt zero_current_grad) ;;
  evaluate step_ind step_batch ;;
  for_each (seq 0 (Z.to_nat n_inf_iter)) (fun inf_it =>
    on_model (model_infer step_batch) ;; log call_infer ;;
    evaluate step_ind step_batch) ;;
  log (call_optimizer inf_opt collect) ;;
  on_model model_generative_mode ;; log call_generative_mode ;;
  on_model (model_generate false 1) ;; log call_generate ;;
  free_energy <- on_model (model_free_energy step_batch) ;; log call_free_energy ;;
  let total_free_energy := variable (fadd (value_of total_free_energy) free_energy) in
  on_model model_diagnostics ;;
  on_model model_step ;; log call_step ;;
  ret total_free_energy.

(** A batch up to the end of the loop over sequence steps. *)
Definition train_sequence (n_batches batch_ind : nat) (batch : tensor)
    : M (run S) pynum :=
  log (print_iteration batch_ind n_batches) ;;
  first <- lift (first_of batch) ;;
  on_model (model_re_init [first]) ;; log call_re_init ;;
  log (call_optimizer inf_opt zero_stored_grad) ;;
  log (call_optimizer inf_opt zero_current_grad) ;;
  log (call_optimizer gen_opt zero_stored_grad) ;;
  log (call_optimizer gen_opt zero_current_grad) ;;
  (match shape batch with
   | _ :: _ :: _ => ret tt
   | _ => raise IndexError
   end) ;;
  frames <- lift (rest_of batch) ;;
  foldM (enumerate frames) (py_float (finite 0))
        (fun '(step_ind, step_batch) total => train_step step_ind step_batch total).

(** The rest of the batch: the NaN check, the backward pass of the total
    free energy and the updates. *)
Definition train_update (batch_ind : nat) (total_free_energy : pynum)
    : M (run S) unit :=
  total <- data_of total_free_energy ;;
  (if isnan total then
     log print_nan ;;
     log set_trace ;;
     match ipdb batch_ind with
     | continue => ret tt
     | quit => raise BdbQuit
     end
   else ret tt) ;;
  log (call_optimizer gen_opt zero_current_grad) ;;
  log (call_backward false) ;;
  log (call_optimizer gen_opt collect) ;;
  log (call_optimizer inf_opt opt_step) ;;
  log (call_optimizer gen_opt opt_step).

Definition train_batch (n_batches batch_ind : nat) (batch : tensor) : M (run S) unit :=
  total_free_energy <- train_sequence n_batches batch_ind batch ;;
  train_update batch_ind total_free_energy.

Definition train (data : list tensor) : M (run S) unit :=
  on_model model_train ;; log call_train ;;
  let n_batches := length data in
  (if (0 <? n_inf_iter)%Z then ret tt
   else raise (AssertionError "Number of inference iterations must be positive.")) ;;
  (if (n_steps <? 0)%Z then raise (ValueError "negative dimensions are not allowed")
   else ret tt) ;;
  for_each (enumerate data) (fun '(batch_ind, batch) =>
    train_batch n_batches batch_ind batch).

Definition validate (data : list tensor) : M (run S) unit :=
  on_model model_eval ;; log call_eval ;;
  for_each (enumerate data) (fun '(batch_ind, batch) =>
    on_model (model_re_init []) ;; log call_re_init ;;
    frames <- lift (unbind0 batch) ;;
    for_each (enumerate frames) (fun '(step_ind, step_batch) =>
      on_model (model_infer step_batch) ;; log call_infer ;;
      on_model (model_generate false 1) ;; log call_generate ;;
      on_model model_step ;; log call_step)).

End Drivers.

(** *** The SVG model behind the interface *)

Section SVGModel.
Context {learned : Learned} {sampling : Sampling} {networks : Networks}.

(** Modelled from the spec: the operations that [SVG] inherits from
    [LatentVariableModel] and [torch.nn.Module], which are not part of the
    sources: the objective and its decomposition, and the mode switches,
    which only set flags. *)
Class Inherited : Type := {
  svg_losses : tensor -> M (world SVG.t) (tensor * tensor * list tensor);
  svg_free_energy : tensor -> M (world SVG.t) fval;
  svg_diagnostics : M (world SVG.t) unit;
  svg_set_mode : call -> world SVG.t -> world SVG.t
}.

Context {inherited : Inherited}.

#[global] Instance SVG_model : LatentVariableModel (world SVG.t) := {
  model_train := modify (svg_set_mode call_train);
  model_eval := modify (svg_set_mode call_eval);
  model_re_init := SVG.re_init;
  model_inference_mode := modify (svg_set_mode call_inference_mode);
  model_generative_mode := modify (svg_set_mode call_generative_mode);
  model_infer := SVG.infer;
  model_generate := SVG.generate;
  model_losses := svg_losses;
  model_free_energy := svg_free_energy;
  model_step := SVG.step;
  model_diagnostics := svg_diagnostics
}.

End SVGModel.

End TrainVal.

(** * The specification's reading of selected operations *)

Module Spec.
Section Defs.
Context {learned : Learned} {sampling : Sampling}.

(** The specification's wording of [FullyConnectedLatentVariable.re_init]:
    the prior is re-initialised to zero first and the approximate posterior
    is re-initialised from it afterwards. *)
Definition re_init_prior_first : M (world FullyConnectedLatentVariable.t) unit :=
  FullyConnectedLatentVariable.on_prior (Normal.re_init None None) ;;
  FullyConnectedLatentVariable.re_init_approx_posterior.

End Defs.

(** The calls that belong to the loop over sequence steps of a batch:
    everything but the report of a NaN, the breakpoint, the backward pass
    of the total free energy and the updates of the optimizers. *)
Definition before_update (c : TrainVal.call) : bool :=
  match c with
  | TrainVal.call_optimizer _ TrainVal.opt_step => false
  | TrainVal.call_backward false => false
  | TrainVal.print_nan => false
  | TrainVal.set_trace => false
  | _ => true
  end.

(** [m] only appends to the log, and only calls that satisfy [P]. *)
Definition appends {S A} (P : TrainVal.call -> Prop) (m : M (TrainVal.run S) A)
    : Prop :=
  forall r, exists l,
    TrainVal.calls (snd (m r)) = TrainVal.calls r ++ l /\ Forall P l.

(** The model types that [SVG] supports. *)
Definition supported (model_type : string) : Prop :=
  model_type = "sm_mnist" \/ model_type = "kth_actions"
  \/ model_type = "bair_robot_pushing".

End Spec.

(** * Concrete collaborators

    Small instances of the external components, on which the operations
    can be run. *)

Module Concrete.

(** All learned weights and biases are zero. *)
Definition zero_learned : Learned :=
  {| weight := fun _ _ _ => 0%R; bias := fun _ _ => 0%R |}.

(** The generator always draws zero noise; a sample stands for itself
    whatever the number of samples; distributions reset to shape
    [\[1; 1; 1\]]. *)
Definition zero_sampling : Sampling :=
  {| randn := fun _ s => zeros s;
     expand_samples := fun _ t => t;
     reset_shape := [1; 1; 1]%nat;
     default_resample := false |}.

(** A latent variable built for the ['direct'] procedure, one input and
    one latent dimension. *)
Definition direct_config : FullyConnectedLatentVariable.latent_config :=
  {| FullyConnectedLatentVariable.cfg_inference_procedure := "direct";
     FullyConnectedLatentVariable.cfg_n_variables := 1;
     FullyConnectedLatentVariable.cfg_n_in := (1, 1)%nat |}.

(** The same with gated updates. *)
Definition iterative_config : FullyConnectedLatentVariable.latent_config :=
  {| FullyConnectedLatentVariable.cfg_inference_procedure := "iterative";
     FullyConnectedLatentVariable.cfg_n_variables := 1;
     FullyConnectedLatentVariable.cfg_n_in := (1, 1)%nat |}.

(** The latent variables that [_construct] builds from these
    configurations, parameter identities starting at [0], holding the
    given distributions. *)
Definition direct_latent (post prior : Normal.t) : FullyConnectedLatentVariable.t :=
  FullyConnectedLatentVariable.mk "direct"
    (FullyConnectedLayer.mk 1 1 FullyConnectedLayer.linear 0 1)
    (FullyConnectedLayer.mk 1 1 FullyConnectedLayer.linear 2 3)
    None None
    (FullyConnectedLayer.mk 1 1 FullyConnectedLayer.linear 4 5)
    (FullyConnectedLayer.mk 1 1 FullyConnectedLayer.linear 6 7)
    post prior.


(** Networks with one parameter each whose outputs are zero: the encoder
    yields a code of shape [\[1; 1\]] and one skip connection, the decoder
    an image of shape [\[1; 6; 1; 1\]], a recurrent network an output of
    shape [\[1; 1\]]. *)
Definition zero_networks : Networks :=
  {| encoder_size := fun _ _ _ => 1%nat;
     decoder_size := fun _ _ _ => 1%nat;
     lstm_size := fun _ _ _ => 1%nat;
     encoder_forward := fun _ _ _ => Ok (zeros [1; 1]%nat, [zeros [1; 1; 1; 1]%nat]);
     decoder_forward := fun _ _ _ => Ok (zeros [1; 6; 1; 1]%nat);
     lstm_state := unit;
     lstm_initial := tt;
     lstm_forward := fun _ st _ => Ok (zeros [1; 1]%nat, st);
     lstm_step := fun st => st;
     lstm_re_init := fun st => st |}.

(** A model whose free energy is always NaN and whose other operations
    succeed without doing anything. *)
Definition nan_model : TrainVal.LatentVariableModel unit :=
  {| TrainVal.model_train := ret tt;
     TrainVal.model_eval := ret tt;
     TrainVal.model_re_init := fun _ => ret tt;
     TrainVal.model_inference_mode := ret tt;
     TrainVal.model_generative_mode := ret tt;
     TrainVal.model_infer := fun _ => ret tt;
     TrainVal.model_generate := fun _ _ => ret (zeros []);
     TrainVal.model_losses := fun _ => ret (zeros [], zeros [], [zeros []]);
     TrainVal.model_free_energy := fun _ => ret TrainVal.nan;
     TrainVal.model_step := ret tt;
     TrainVal.model_diagnostics := ret tt |}.

(** The configuration of the smallest supported model. *)
Definition sm_mnist_config : gmap string pyval :=
  <["model_type" := VStr "SM_MNIST"]>
    (<["inference_procedure" := VStr "direct"]> ∅).

(** A model in the middle of a sequence, with small layers: the previous
    frame is encoded as [\[1; 1\]] zeros without skip connections, and the
    distributions of the latent variable hold one zero entry. *)
Definition running_model : SVG.t (networks := zero_networks) :=
  SVG.mk (networks := zero_networks) "direct"
    (ConvNet dcgan [0%nat]) (ConvNet dcgan [1%nat])
    [LSTMLatentLevel.mk (networks := zero_networks)
       (LSTMNetwork.mk (networks := zero_networks) [2%nat] tt)
       (LSTMNetwork.mk (networks := zero_networks) [3%nat] tt)
       (FullyConnectedLatentVariable.mk "direct"
          (FullyConnectedLayer.mk 1 1 FullyConnectedLayer.linear 4 5)
          (FullyConnectedLayer.mk 1 1 FullyConnectedLayer.linear 6 7)
          None None
          (FullyConnectedLayer.mk 1 1 FullyConnectedLayer.linear 8 9)
          (FullyConnectedLayer.mk 1 1 FullyConnectedLayer.linear 10 11)
          (Normal.mk (Some (Tensor.mk [1; 1; 1]%nat [0%R]))
             (Some (Tensor.mk [1; 1; 1]%nat [0%R])) None)
          (Normal.mk (Some (Tensor.mk [1; 1; 1]%nat [0%R]))
             (Some (Tensor.mk [1; 1; 1]%nat [0%R])) None))]
    (LSTMNetwork.mk (networks := zero_networks) [12%nat] tt)
    (FullyConnectedLayer.mk 1 1 FullyConnectedLayer.tanh 13 14)
    Normal.new None None
    (Some (zeros [1; 1]%nat)) (Some []).

(** One batch of two frames, for a batch size of one. *)
Definition two_frames : tensor := Tensor.mk [2; 1]%nat [0%R; 0%R].

(** A distribution with one entry of mean [x] and log-variance [y], of
    shape [s]. *)
Definition point (s : list nat) (x y : R) : Normal.t :=
  Normal.mk (Some (Tensor.mk s [x])) (Some (Tensor.mk s [y])) None.

End Concrete.

(** * Further predicates on runs and states *)

Module Trace.
Import TrainVal.

(** A call of [step()] on the optimizer [o]. *)
Definition is_step (o : optimizer) (c : call) : bool :=
  match c with
  | call_optimizer o' opt_step =>
      match o, o' with
      | inf_opt, inf_opt | gen_opt, gen_opt => true
      | _, _ => false
      end
  | _ => false
  end.

(** How often the optimizer [o] has made a step in a log. *)
Definition steps (o : optimizer) (l : list call) : nat :=
  length (List.filter (is_step o) l).

Definition no_step (c : call) : bool :=
  match c with
  | call_optimizer _ opt_step => false
  | _ => true
  end.

(** How often a call occurs in a log. *)
Definition occurrences (p : call -> bool) (l : list call) : nat :=
  length (List.filter p l).

Definition is_infer (c : call) : bool :=
  match c with call_infer => true | _ => false end.

Definition is_generate (c : call) : bool :=
  match c with call_generate => true | _ => false end.

Definition is_inf_collect (c : call) : bool :=
  match c with call_optimizer inf_opt collect => true | _ => false end.

(** The calls that end a batch of [train]. *)
Definition updates : list call :=
  [call_optimizer gen_opt zero_current_grad;
   call_backward false;
   call_optimizer gen_opt collect;
   call_optimizer inf_opt opt_step;
   call_optimizer gen_opt opt_step].

(** The calls on the model that [validate] makes. *)
Definition validation_call (c : call) : bool :=
  match c with
  | call_eval | call_re_init | call_infer | call_generate | call_step => true
  | _ => false
  end.

(** The calls of [train] that precede the re-initialisation of the model
    on a batch. *)
Definition startup_call (c : call) : bool :=
  match c with
  | call_train | print_iteration _ _ => true
  | _ => false
  end.

(** [m] only appends to the log and, when it returns, has appended exactly
    [n] calls that satisfy [p]. *)
Definition counted {S A} (p : call -> bool) (n : nat) (m : M (run S) A) : Prop :=
  forall r, exists l,
    calls (snd (m r)) = calls r ++ l /\
    (is_ok (fst (m r)) = true -> occurrences p l = n).

End Trace.

Module Frame.

(** The computation [m] leaves the part [f] of the object as it is,
    whether it returns or raises. *)
Definition invariant {O A B} (f : O -> B) (m : M (world O) A) : Prop :=
  forall w, f (obj (snd (m w))) = f (obj w).


(** The mean and the log-variance of the approximate posterior. *)
Definition posterior_parameters (lv : FullyConnectedLatentVariable.t)
    : option tensor * option tensor :=
  (Normal.mean (FullyConnectedLatentVariable.approx_post lv),
   Normal.log_var (FullyConnectedLatentVariable.approx_post lv)).

(** The two parameter lists of a latent variable. *)
Definition latent_partition {learned : Learned} {sampling : Sampling}
    (lv : FullyConnectedLatentVariable.t) : result (list param) * result (list param) :=
  (FullyConnectedLatentVariable.inference_parameters lv,
   FullyConnectedLatentVariable.generative_parameters lv).

(** The two parameter lists of a latent level. *)
Definition level_partition {learned : Learned} {sampling : Sampling}
    {networks : Networks} (l : LSTMLatentLevel.t)
    : result (list param) * result (list param) :=
  (LSTMLatentLevel.inference_parameters l, LSTMLatentLevel.generative_parameters l).

(** The two parameter lists of the model. *)
Definition model_partition {learned : Learned} {sampling : Sampling}
    {networks : Networks} (m : SVG.t) : result (list param) * result (list param) :=
  (SVG.inference_parameters m, SVG.generative_parameters m).

(** What [SVG.generate] reads of the model besides the latent level: the
    encodings of the previous frame, the decoder LSTM and the output
    distribution. *)
Definition generation_state {networks : Networks} (m : SVG.t)
    : option tensor * option (list tensor) * LSTMNetwork.t * Normal.t :=
  (SVG._prev_h m, SVG._prev_skip m, SVG.decoder_lstm m, SVG.output_dist m).

(** The current and the previous encodings held by the model. *)
Definition encodings {networks : Networks} (m : SVG.t)
    : option tensor * option (list tensor) * option tensor * option (list tensor) :=
  (SVG._h m, SVG._skip m, SVG._prev_h m, SVG._prev_skip m).

End Frame.

(** * Further concrete collaborators *)

Module Examples.

(** Networks with one parameter each in which a recurrent network returns
    its input: the encoder yields a code of shape [\[1; 1\]] without skip
    connections, the decoder an image of shape [\[1; 6; 1; 1\]]. *)
Definition echo_networks : Networks :=
  {| encoder_size := fun _ _ _ => 1%nat;
     decoder_size := fun _ _ _ => 1%nat;
     lstm_size := fun _ _ _ => 1%nat;
     encoder_forward := fun _ _ _ => Ok (zeros [1; 1]%nat, []);
     decoder_forward := fun _ _ _ => Ok (zeros [1; 6; 1; 1]%nat);
     lstm_state := unit;
     lstm_initial := tt;
     lstm_forward := fun _ st x => Ok (x, st);
     lstm_step := fun st => st;
     lstm_re_init := fun st => st |}.

(** A model that has just encoded a frame: the encoding is [\[1; 1\]]
    zeros, the previous one is gone, and the distributions of the latent
    variable hold one zero entry. *)
Definition encoded_model : SVG.t (networks := echo_networks) :=
  SVG.mk (networks := echo_networks) "direct"
    (ConvNet dcgan [0%nat]) (ConvNet dcgan [1%nat])
    [LSTMLatentLevel.mk (networks := echo_networks)
       (LSTMNetwork.mk (networks := echo_networks) [2%nat] tt)
       (LSTMNetwork.mk (networks := echo_networks) [3%nat] tt)
       (Concrete.direct_latent (Concrete.point [1; 1; 1]%nat 0 0)
          (Concrete.point [1; 1; 1]%nat 0 0))]
    (LSTMNetwork.mk (networks := echo_networks) [12%nat] tt)
    (FullyConnectedLayer.mk 1 1 FullyConnectedLayer.tanh 13 14)
    Normal.new (Some (zeros [1; 1]%nat)) (Some []) None None.

(** A configuration that asks for iterative inference. *)
Definition iterative_model_config : gmap string pyval :=
  <["model_type" := VStr "kth_actions"]>
    (<["inference_procedure" := VStr "Iterative"]> ∅).

End Examples.
(** * Properties *)

(** ** Facts about tensors *)

Section TensorFacts.














(** The mean over dimension 1 exists as soon as there are two dimensions. *)
Lemma mean_dim1_defined (t : tensor) :
  (2 <= length (shape t))%nat -> exists m, mean_dim t 1 = Ok m.
Proof.
  intros Hr. unfold mean_dim.
  destruct (1 <? length (shape t))%nat eqn:E.
  - eexists. reflexivity.
  - apply Nat.ltb_ge in E. lia.
Qed.

End TensorFacts.

(** ** The latent variable *)

Section LatentVariableFacts.
Context {learned : Learned} {sampling : Sampling}.
Import FullyConnectedLatentVariable.

(** Sampling leaves the mean and the log-variance of a distribution as
    they are. *)
Lemma sample_keeps_parameters (n : nat) (resample : bool)
    (w w' : world Normal.t) (r : result tensor) :
  Normal.sample n resample w = (r, w') ->
  Normal.mean (obj w') = Normal.mean (obj w) /\
  Normal.log_var (obj w') = Normal.log_var (obj w).
Proof.
  unfold Normal.sample, bind, self, lift, ret, raise, Normal.draw.
  destruct w as [[m v e] k]. simpl.
  destruct m as [m |], v as [v |]; simpl;
    try (intros Hr; injection Hr as <- <-; split; reflexivity).
  destruct e as [e |]; simpl.
  - destruct (negb resample && bool_decide (shape e = shape m)); simpl;
      destruct (mul _ _) as [se | ?]; simpl;
      try destruct (add _ _); simpl;
      intros Hr; injection Hr as <- <-; split; reflexivity.
  - destruct (mul _ _) as [se | ?]; simpl;
      try destruct (add _ _); simpl;
      intros Hr; injection Hr as <- <-; split; reflexivity.
Qed.


Lemma zeros_all_zero (s : list nat) : all_zero (zeros s).
Proof.
  unfold all_zero, zeros. simpl. apply List.Forall_forall.
  intros x Hx. apply repeat_spec in Hx. exact Hx.
Qed.

(** C2, amended. [re_init] re-initialises the approximate posterior
    first, from the statistics that the prior holds when [re_init] is
    called (the means over dimension 1 of its mean and log-variance, which
    must have at least two dimensions), and re-initialises the prior to
    zero afterwards: on return the prior is zero and without noise, and
    the posterior holds the averages of the previous prior. *)
Theorem re_init_seeds_posterior_before_zeroing_prior
    (lv : t) (k : nat) (pm pv : tensor) :
  Normal.mean (prior lv) = Some pm ->
  Normal.log_var (prior lv) = Some pv ->
  (2 <= length (shape pm))%nat ->
  (2 <= length (shape pv))%nat ->
  exists m v lv',
    mean_dim (detach pm) 1 = Ok m /\
    mean_dim (detach pv) 1 = Ok v /\
    re_init (World lv k) = (Ok tt, World lv' k) /\
    approx_post lv' = Normal.mk (Some m) (Some v) None /\
    prior lv' = Normal.mk (Some (zeros reset_shape)) (Some (zeros reset_shape)) None /\
    all_zero (zeros reset_shape) /\
    lv' = set_prior (Normal.re_init_value None None)
            (set_approx_post (Normal.mk (Some m) (Some v) None) lv).
Proof.
  intros Hm Hv Hrm Hrv.
  destruct (mean_dim1_defined Hrm) as [m Em].
  destruct (mean_dim1_defined Hrv) as [v Ev].
  exists m, v. eexists. repeat split; try eassumption.
  - unfold re_init, re_init_approx_posterior, bind, self, attr, lift, ret. simpl.
    rewrite Hm. simpl. unfold clone. rewrite Em. simpl.
    rewrite Hv. simpl. rewrite Ev. simpl.
    reflexivity.
  - reflexivity.
  - reflexivity.
  - apply zeros_all_zero.
Qed.

End LatentVariableFacts.

(** ** Layers, blending and views *)

Section LayerFacts.
Context {learned : Learned}.




End LayerFacts.



Section Gated.
Context {learned : Learned} {sampling : Sampling}.
Import FullyConnectedLatentVariable.


End Gated.





Section Generate.
Context {learned : Learned} {sampling : Sampling}.
Import FullyConnectedLatentVariable.


End Generate.

(** ** Construction of the model and its parameter partition *)

(** Unfold a construction whose configuration entries are known. *)
Ltac run_construct Ht Hp :=
  unfold SVG._construct, bind, getitem, lower, ret;
  rewrite Ht, Hp; simpl.

(** Evaluate the parameter lists of a model given field by field. *)
Ltac run_parameters :=
  unfold SVG.inference_parameters, SVG.generative_parameters, SVG.level0,
    LSTMLatentLevel.inference_parameters, LSTMLatentLevel.generative_parameters,
    FullyConnectedLatentVariable.inference_parameters,
    FullyConnectedLatentVariable.generative_parameters,
    FullyConnectedLayer.parameters, rbind;
  simpl.

(** Membership in the parameter lists of a constructed model comes down
    to arithmetic on the identities. *)
Ltac params_arith :=
  repeat match goal with
         | Hin : In _ (_ ++ _) |- _ => apply in_app_or in Hin
         | Hin : In _ (seq _ _) |- _ => apply List.in_seq in Hin
         | Hin : In _ (_ :: _) |- _ => simpl in Hin
         | Hin : In _ [] |- _ => destruct Hin
         | Hin : _ \/ _ |- _ => destruct Hin
         end;
  try lia.

Section Construction.
Context {learned : Learned} {sampling : Sampling} {networks : Networks}.

(** C8. Construction of [SVG] from a configuration that gives the model
    type and the inference procedure as strings raises an exception, before
    any module is built, when the lower-cased model type is none of
    ['sm_mnist'], ['kth_actions'] and ['bair_robot_pushing'], and returns a
    model for each of these three. *)
Theorem construct_rejects_unknown_model_type
    (cfg : gmap string pyval) (s p : string) (c0 : nat) :
  cfg !! "model_type" = Some (VStr s) ->
  cfg !! "inference_procedure" = Some (VStr p) ->
  (~ Spec.supported (lower_string s) ->
   SVG._construct cfg c0
   = (Raise (Exception (SVG.unknown_model_type (lower_string s))), c0)) /\
  (Spec.supported (lower_string s) ->
   exists m c1, SVG._construct cfg c0 = (Ok m, c1)).
Proof.
  intros Ht Hp. split.
  - intros Hno. unfold Spec.supported in Hno.
    run_construct Ht Hp.
    destruct (String.eqb_spec (lower_string s) "sm_mnist") as [E | _];
      [tauto |].
    destruct (String.eqb_spec (lower_string s) "kth_actions") as [E | _];
      [tauto |].
    destruct (String.eqb_spec (lower_string s) "bair_robot_pushing") as [E | _];
      [tauto |].
    reflexivity.
  - intros [E | [E | E]]; run_construct Ht Hp; rewrite E; simpl;
      eexists _, _; reflexivity.
Qed.

(** C3. The parameter lists returned by [inference_parameters] and
    [generative_parameters] have no parameter object in common: for the
    latent variable built from any configuration (whether its inference
    procedure is ['direct'] or not), and for the [SVG] model built for each
    of the three supported model types, whatever its inference
    procedure. *)
Theorem partitions_are_disjoint
    (latent_config : FullyConnectedLatentVariable.latent_config) (c : nat)
    (cfg : gmap string pyval) (s p : string) (c0 : nat) :
  cfg !! "model_type" = Some (VStr s) ->
  cfg !! "inference_procedure" = Some (VStr p) ->
  Spec.supported (lower_string s) ->
  (exists lv c' inf gen,
      FullyConnectedLatentVariable._construct latent_config c = (Ok lv, c') /\
      FullyConnectedLatentVariable.inference_parameters lv = Ok inf /\
      FullyConnectedLatentVariable.generative_parameters lv = Ok gen /\
      inf <> [] /\ gen <> [] /\
      forall q, In q inf -> ~ In q gen) /\
  (exists m c1 inf gen,
      SVG._construct cfg c0 = (Ok m, c1) /\
      SVG.inference_parameters m = Ok inf /\
      SVG.generative_parameters m = Ok gen /\
      inf <> [] /\ gen <> [] /\
      forall q, In q inf -> ~ In q gen).
Proof.
  intros Ht Hp Hs. split.
  - unfold FullyConnectedLatentVariable._construct, bind, ret,
      FullyConnectedLayer.new, fresh,
      FullyConnectedLatentVariable.inference_parameters,
      FullyConnectedLatentVariable.generative_parameters.
    destruct (FullyConnectedLatentVariable.is_direct
                (FullyConnectedLatentVariable.cfg_inference_procedure latent_config))
      eqn:Hdir; simpl;
      eexists _, _, _, _;
      (split; [reflexivity |]);
      (split; [simpl; rewrite Hdir; simpl; reflexivity |]);
      (split; [reflexivity |]);
      (split; [discriminate |]); (split; [discriminate |]);
      intros q Hi Hg; params_arith.
  - destruct Hs as [E | [E | E]]; run_construct Ht Hp; rewrite E; simpl;
      eexists _, _, _, _;
      (split; [reflexivity |]);
      (split; [run_parameters; reflexivity |]);
      (split; [run_parameters; reflexivity |]);
      (split; [| split]);
      try (intros Habs; apply (f_equal (@length nat)) in Habs;
           rewrite ?length_app in Habs; simpl in Habs; lia);
      intros q Hi Hg; params_arith.
Qed.

End Construction.

(** ** Running the model *)

Section Running.
Context {learned : Learned} {sampling : Sampling} {networks : Networks}.

Lemma bind_ok {S A B} (m : M S A) (k : A -> M S B) (s s' : S) (b : B) :
  bind m k s = (Ok b, s') ->
  exists a s1, m s = (Ok a, s1) /\ k a s1 = (Ok b, s').
Proof.
  unfold bind. destruct (m s) as [[a | e] s1]; intros Hk.
  - exists a, s1. split; [reflexivity | exact Hk].
  - discriminate.
Qed.

Lemma lift_ok {S A} (r : result A) (s s' : S) (a : A) :
  lift r s = (Ok a, s') -> r = Ok a /\ s' = s.
Proof. unfold lift. intros Hr. injection Hr as -> ->. split; reflexivity. Qed.

Lemma attr_ok {S A} (name : string) (o : option A) (s s' : S) (a : A) :
  FullyConnectedLatentVariable.attr name o s = (Ok a, s') -> o = Some a /\ s' = s.
Proof.
  unfold FullyConnectedLatentVariable.attr. destruct o as [x |]; intros Hr.
  - injection Hr as -> ->. split; reflexivity.
  - discriminate.
Qed.

(** Every call of [generate] that returns has applied the output layer
    [decoder_lstm_output] to the output of the decoder LSTM and has passed
    the result to the decoder, whose image provides the mean of the output
    distribution. *)
Lemma generate_applies_output_layer (gen : bool) (n_samples : nat)
    (w w' : world SVG.t) (out : tensor) :
  SVG.generate gen n_samples w = (Ok out, w') ->
  exists zh g hidden y skips image mean,
    lstm_forward (LSTMNetwork.parameters (SVG.decoder_lstm (obj w)))
      (LSTMNetwork.hidden (SVG.decoder_lstm (obj w))) zh = Ok (g, hidden) /\
    FullyConnectedLayer.forward (SVG.decoder_lstm_output (obj w)) g = Ok y /\
    decoder_forward (arch (SVG.decoder (obj w))) (conv_params (SVG.decoder (obj w)))
      (y, skips) = Ok image /\
    slice_dim1_to image 3 = Ok mean /\
    Normal.mean (SVG.output_dist (obj w')) = Some mean.
Proof.
  unfold SVG.generate. intros Hg.
  apply bind_ok in Hg as (m & w1 & Hself & Hg).
  unfold self in Hself. injection Hself as <- <-.
  apply bind_ok in Hg as (prev & w1 & Hprev & Hg).
  apply attr_ok in Hprev as [Hprev ->].
  apply bind_ok in Hg as (batch_size & w1 & Hb & Hg).
  assert (w1 = w) as ->.
  { destruct (shape prev); [discriminate |]. injection Hb as _ <-. reflexivity. }
  clear Hb.
  apply bind_ok in Hg as (prev_h & w1 & Hu & Hg).
  apply lift_ok in Hu as [Hu ->].
  apply bind_ok in Hg as (skips0 & w1 & Hk & Hg).
  apply attr_ok in Hk as [Hk ->].
  apply bind_ok in Hg as (prev_skip & w1 & Hr & Hg).
  apply lift_ok in Hr as [Hr ->].
  apply bind_ok in Hg as (z & w1 & Hz & Hg).
  apply bind_ok in Hg as (zh0 & w2 & Hc & Hg).
  apply lift_ok in Hc as [Hc ->].
  apply bind_ok in Hg as (zh & w2 & Hv & Hg).
  apply lift_ok in Hv as [Hv ->].
  apply bind_ok in Hg as (g & w2 & Hl & Hg).
  apply bind_ok in Hg as (y & w3 & Hy & Hg).
  apply lift_ok in Hy as [Hy ->].
  apply bind_ok in Hg as (image & w3 & Hd & Hg).
  apply lift_ok in Hd as [Hd ->].
  apply bind_ok in Hg as (mean & w3 & Hm & Hg).
  apply lift_ok in Hm as [Hm ->].
  apply bind_ok in Hg as (log_var & w3 & Hlv & Hg).
  apply lift_ok in Hlv as [Hlv ->].
  apply bind_ok in Hg as ([] & w3 & Ham & Hg).
  apply bind_ok in Hg as ([] & w4 & Hav & Hg).
  unfold SVG.on_output_dist, on_attr, zoom, Normal.assign_mean in Ham.
  simpl in Ham. injection Ham as <-.
  unfold SVG.on_output_dist, on_attr, zoom, Normal.assign_log_var in Hav.
  simpl in Hav. injection Hav as <-.
  unfold SVG.on_output_dist, on_attr, zoom in Hg. simpl in Hg.
  destruct (Normal.sample 1 default_resample _) as [r wd] eqn:Hs.
  apply sample_keeps_parameters in Hs as [Hmean _]. simpl in Hmean.
  injection Hg as _ <-. simpl.
  assert (Hsame : SVG.decoder_lstm (obj w1) = SVG.decoder_lstm (obj w)).
  { unfold SVG.on_level0 in Hz.
    destruct (SVG.latent_levels (obj w)) as [| l ls]; [discriminate |].
    destruct (LSTMLatentLevel.generate None gen n_samples _) as [rz wz].
    injection Hz as _ <-. reflexivity. }
  unfold SVG.on_decoder_lstm, on_attr, zoom, LSTMNetwork.forward, bind, self,
    lift, set_self, ret in Hl.
  simpl in Hl. rewrite Hsame in Hl.
  destruct (lstm_forward _ _ zh) as [[g' hidden] | e] eqn:Hf; simpl in Hl;
    [| discriminate].
  injection Hl as <- _.
  exists zh, g', hidden, y, prev_skip, image, mean.
  repeat split; assumption.
Qed.

(** C9. In the [SVG] model built for any of the supported model types,
    the parameters of [decoder_lstm_output] (it has some: a weight and a
    bias) are neither in [inference_parameters()] nor in
    [generative_parameters()], although every call of [generate] that
    returns has applied the layer to the output of the decoder LSTM and
    handed its result to the decoder. *)
Theorem output_layer_in_neither_partition
    (cfg : gmap string pyval) (s p : string) (c0 : nat)
    (gen : bool) (n_samples : nat) (w w' : world SVG.t) (out : tensor) :
  cfg !! "model_type" = Some (VStr s) ->
  cfg !! "inference_procedure" = Some (VStr p) ->
  Spec.supported (lower_string s) ->
  SVG.generate gen n_samples w = (Ok out, w') ->
  (exists m c1 inf gen_params,
      SVG._construct cfg c0 = (Ok m, c1) /\
      SVG.inference_parameters m = Ok inf /\
      SVG.generative_parameters m = Ok gen_params /\
      FullyConnectedLayer.parameters (SVG.decoder_lstm_output m) <> [] /\
      forall q, In q (FullyConnectedLayer.parameters (SVG.decoder_lstm_output m)) ->
                ~ In q inf /\ ~ In q gen_params) /\
  (exists zh g hidden y skips image mean,
      lstm_forward (LSTMNetwork.parameters (SVG.decoder_lstm (obj w)))
        (LSTMNetwork.hidden (SVG.decoder_lstm (obj w))) zh = Ok (g, hidden) /\
      FullyConnectedLayer.forward (SVG.decoder_lstm_output (obj w)) g = Ok y /\
      decoder_forward (arch (SVG.decoder (obj w))) (conv_params (SVG.decoder (obj w)))
        (y, skips) = Ok image /\
      slice_dim1_to image 3 = Ok mean /\
      Normal.mean (SVG.output_dist (obj w')) = Some mean).
Proof.
  intros Ht Hp Hs Hg. split.
  - destruct Hs as [E | [E | E]]; run_construct Ht Hp; rewrite E; simpl;
      eexists _, _, _, _;
      (split; [reflexivity |]);
      (split; [run_parameters; reflexivity |]);
      (split; [run_parameters; reflexivity |]);
      (split; [discriminate |]);
      intros q Hq; unfold FullyConnectedLayer.parameters in Hq; simpl in Hq;
      split; intros Hi; params_arith.
  - eapply generate_applies_output_layer. exact Hg.
Qed.

End Running.

(** ** Re-initialisation and the drivers *)

Section Drivers.
Context {learned : Learned} {sampling : Sampling} {networks : Networks}.

Lemma get_encoding_form_unbound : SVG.has_attribute "get_encoding_form" = false.
Proof. reflexivity. Qed.

Lemma underscored_name_bound : SVG.has_attribute "_get_encoding_form" = true.
Proof. reflexivity. Qed.

(** C1. [re_init(first_frame)] re-initialises the latent level and the
    decoder LSTM, clears [_h] and [_skip], and then looks up
    [get_encoding_form], a name that no class of the model binds (the
    method is [_get_encoding_form]): unless the re-initialisation of the
    level has already failed, the call raises [AttributeError].  In no case
    does it return, and [_prev_h] and [_prev_skip] keep their previous
    values: the first frame is never encoded. *)
Theorem re_init_raises_attribute_error (first_frame : tensor) (w : world SVG.t) :
  fst (SVG.re_init [first_frame] w)
  = match fst (SVG.on_level0 LSTMLatentLevel.re_init w) with
    | Ok _ => Raise (AttributeError "get_encoding_form")
    | Raise e => Raise e
    end /\
  is_ok (fst (SVG.re_init [first_frame] w)) = false /\
  SVG._prev_h (obj (snd (SVG.re_init [first_frame] w))) = SVG._prev_h (obj w) /\
  SVG._prev_skip (obj (snd (SVG.re_init [first_frame] w))) = SVG._prev_skip (obj w).
Proof.
  unfold SVG.re_init, bind.
  assert (Hkeep : forall r w1, SVG.on_level0 LSTMLatentLevel.re_init w = (r, w1) ->
            SVG._prev_h (obj w1) = SVG._prev_h (obj w) /\
            SVG._prev_skip (obj w1) = SVG._prev_skip (obj w)).
  { unfold SVG.on_level0. intros r w1.
    destruct (SVG.latent_levels (obj w)) as [| l ls].
    - intros Hr. injection Hr as _ <-. split; reflexivity.
    - destruct (LSTMLatentLevel.re_init _) as [r0 w0].
      intros Hr. injection Hr as _ <-. split; reflexivity. }
  destruct (SVG.on_level0 LSTMLatentLevel.re_init w) as [[[] | e] w1] eqn:Hl;
    destruct (Hkeep _ _ eq_refl) as [Hh Hs]; simpl.
  - unfold SVG.on_decoder_lstm, on_attr, zoom, LSTMNetwork.re_init, bind, self,
      set_self, SVG.getattr, raise. simpl.
    rewrite ?get_encoding_form_unbound. simpl.
    repeat split; assumption.
  - repeat split; assumption.
Qed.

(** A call of [re_init] without the first frame does not bind [input]. *)
Lemma re_init_needs_input (w : world SVG.t) :
  SVG.re_init [] w = (Raise (TypeError "re_init() takes exactly 2 arguments"), w).
Proof. reflexivity. Qed.

Section WithInherited.
Context {inherited : TrainVal.Inherited}.

(** C10. On a data loader with at least one batch, [validate] switches the
    model to evaluation mode and calls [re_init] without an observation;
    [SVG.re_init] requires one, so the call raises [TypeError] in the first
    iteration: [validate] stops there, the model unchanged but for its
    mode, and no [re_init], [infer], [generate] or [step] has completed. *)
Theorem validate_fails_at_first_batch
    (batch : tensor) (rest : list tensor) (r : TrainVal.run (world SVG.t)) :
  TrainVal.validate (batch :: rest) r
  = (Raise (TypeError "re_init() takes exactly 2 arguments"),
     TrainVal.Run (TrainVal.svg_set_mode TrainVal.call_eval (TrainVal.model r))
       (TrainVal.calls r ++ [TrainVal.call_eval])).
Proof. reflexivity. Qed.

End WithInherited.

End Drivers.

(** ** The training loop *)

Section TrainingLoop.
Context {S : Type} {model_ops : TrainVal.LatentVariableModel S}.
Variable sequence_length inference_iterations : Z.
Variable ipdb : nat -> TrainVal.debugger_command.

Import TrainVal Spec.

Lemma appends_ret {A} (P : call -> Prop) (a : A) : appends P (ret (S := run S) a).
Proof. intros r. exists []. simpl. rewrite app_nil_r. split; [reflexivity | constructor]. Qed.

Lemma appends_raise {A} (P : call -> Prop) (e : exn) :
  appends P (raise (S := run S) (A := A) e).
Proof. intros r. exists []. simpl. rewrite app_nil_r. split; [reflexivity | constructor]. Qed.

Lemma appends_lift {A} (P : call -> Prop) (x : result A) :
  appends P (lift (S := run S) x).
Proof. intros r. exists []. simpl. rewrite app_nil_r. split; [reflexivity | constructor]. Qed.

Lemma appends_log (P : call -> Prop) (c : call) : P c -> appends P (log (S := S) c).
Proof.
  intros Hc r. exists [c]. simpl. split; [reflexivity |].
  constructor; [exact Hc | constructor].
Qed.

Lemma appends_on_model {A} (P : call -> Prop) (m : M S A) : appends P (on_model m).
Proof.
  intros r. exists []. unfold on_model, zoom.
  destruct (m (model r)) as [x s]. simpl. rewrite app_nil_r.
  split; [reflexivity | constructor].
Qed.

Lemma appends_bind {A B} (P : call -> Prop) (m : M (run S) A) (k : A -> M (run S) B) :
  appends P m -> (forall a, appends P (k a)) -> appends P (bind m k).
Proof.
  intros Hm Hk r. unfold bind.
  destruct (Hm r) as (l1 & E1 & F1).
  destruct (m r) as [[a | e] r1]; simpl in *.
  - destruct (Hk a r1) as (l2 & E2 & F2).
    exists (l1 ++ l2). rewrite E2, E1, app_assoc.
    split; [reflexivity | apply Forall_app; split; assumption].
  - exists l1. split; assumption.
Qed.

Lemma appends_for_each {A} (P : call -> Prop) (l : list A) (body : A -> M (run S) unit) :
  (forall x, appends P (body x)) -> appends P (for_each l body).
Proof.
  intros Hb. induction l as [| x l IH]; simpl.
  - apply appends_ret.
  - apply appends_bind; [apply Hb | intros _; exact IH].
Qed.

Lemma appends_foldM {A B} (P : call -> Prop) (l : list A) (acc : B)
    (body : A -> B -> M (run S) B) :
  (forall x b, appends P (body x b)) -> appends P (foldM l acc body).
Proof.
  intros Hb. revert acc. induction l as [| x l IH]; intros acc; simpl.
  - apply appends_ret.
  - apply appends_bind; [apply Hb | intros b; apply IH].
Qed.

Ltac appends_steps :=
  repeat first
    [ apply appends_ret
    | apply appends_raise
    | apply appends_lift
    | apply appends_on_model
    | apply appends_log; reflexivity
    | apply appends_bind; [| intros ?]
    | apply appends_for_each; intros ?
    | apply appends_foldM; intros [? ?] ?
    | match goal with
      | |- appends _ (if ?b then _ else _) => destruct b
      | |- appends _ (match ?x with _ => _ end) => destruct x
      end ].

(** The loop over sequence steps makes no update and reports nothing. *)
Lemma train_sequence_before_update (n_batches batch_ind : nat) (batch : tensor) :
  appends (fun c => before_update c = true)
    (train_sequence sequence_length inference_iterations n_batches batch_ind batch).
Proof.
  unfold train_sequence, train_step, evaluate. appends_steps.
Qed.


End TrainingLoop.


(** ** The protocol of the drivers *)

Section TrainingProtocol.
Context {S : Type} {model_ops : TrainVal.LatentVariableModel S}.
Variable sequence_length inference_iterations : Z.
Variable ipdb : nat -> TrainVal.debugger_command.

Import TrainVal Spec Trace.

Lemma steps_app (o : optimizer) (l1 l2 : list call) :
  steps o (l1 ++ l2) = (steps o l1 + steps o l2)%nat.
Proof. unfold steps. rewrite List.filter_app, length_app. reflexivity. Qed.

Lemma no_step_steps (o : optimizer) (l : list call) :
  Forall (fun c => no_step c = true) l -> steps o l = 0%nat.
Proof.
  unfold steps. induction 1 as [| c l Hc _ IH]; simpl.
  - reflexivity.
  - destruct c as [| | | | | | | | | | | o' [] | | |]; simpl in *;
      try discriminate; exact IH.
Qed.

Lemma before_update_no_step (l : list call) :
  Forall (fun c => before_update c = true) l ->
  Forall (fun c => no_step c = true) l.
Proof.
  intros Hl. eapply Forall_impl; [exact Hl |].
  intros [| | | | | | | | | | | o [] | | |]; simpl; congruence.
Qed.

(** What a batch of [train] appends to the log, by its outcome. *)
Lemma train_batch_log
    (n_batches batch_ind : nat) (batch : tensor) (r : run S) :
  exists l,
    calls (snd (train_batch sequence_length inference_iterations ipdb
                  n_batches batch_ind batch r))
    = calls r ++ l /\
    match fst (train_batch sequence_length inference_iterations ipdb
                 n_batches batch_ind batch r) with
    | Ok _ => exists pre, l = pre ++ updates /\ Forall (fun c => no_step c = true) pre
    | Raise _ => Forall (fun c => no_step c = true) l
    end.
Proof.
  unfold train_batch, bind.
  destruct (train_sequence_before_update sequence_length inference_iterations
              n_batches batch_ind batch r) as (l1 & E1 & F1).
  apply before_update_no_step in F1.
  destruct (train_sequence _ _ _ _ _ r) as [[total | e] r1]; simpl in E1.
  - destruct total as [x | x]; unfold train_update, bind, data_of, raise, ret, log.
    + simpl. exists l1. split; assumption.
    + destruct (isnan x); simpl.
      * destruct (ipdb batch_ind); simpl.
        -- exists ((l1 ++ [print_nan; set_trace]) ++ updates). split.
           ++ rewrite E1, <- !app_assoc. reflexivity.
           ++ eexists. split; [reflexivity |].
              apply Forall_app. split; [exact F1 |].
              repeat constructor.
        -- exists (l1 ++ [print_nan; set_trace]). split.
           ++ rewrite E1, <- !app_assoc. reflexivity.
           ++ apply Forall_app. split; [exact F1 |]. repeat constructor.
      * exists (l1 ++ updates). split.
        -- rewrite E1, <- !app_assoc. reflexivity.
        -- eexists. split; [reflexivity | exact F1].
  - simpl. exists l1. split; assumption.
Qed.





Lemma length_chunks (k n : nat) (l : list R) : length (chunks k n l) = n.
Proof.
  revert l. induction n as [| n IH]; intros l; simpl.
  - reflexivity.
  - rewrite IH. reflexivity.
Qed.

Lemma last_enumerated {A} (l : list A) (start : nat) :
  l <> [] ->
  exists x, In ((start + length l - 1)%nat, x) (combine (seq start (length l)) l).
Proof.
  revert start. induction l as [| y l IH]; intros start Hne; [congruence |].
  destruct l as [| y' l'].
  - exists y. left. f_equal. simpl. lia.
  - destruct (IH (Datatypes.S start)) as [x Hx]; [discriminate |].
    exists x. right.
    replace (start + length (y :: y' :: l') - 1)%nat
      with (Datatypes.S start + length (y' :: l') - 1)%nat by (simpl; lia).
    exact Hx.
Qed.

Lemma foldM_ok_each {A B} (l : list A) (acc : B) (body : A -> B -> M (run S) B)
    (r r' : run S) (b : B) :
  foldM l acc body r = (Ok b, r') ->
  forall x, In x l -> exists a s b' s', body x a s = (Ok b', s').
Proof.
  revert acc r. induction l as [| y l IH]; intros acc r Hf x Hx.
  - destruct Hx.
  - simpl in Hf. apply bind_ok in Hf as (a' & s1 & Hy & Hf).
    destruct Hx as [-> | Hx].
    + eauto.
    + eapply IH; eassumption.
Qed.

Lemma evaluate_ok_bound (step_ind : nat) (step_batch : tensor) (r r' : run S) :
  evaluate sequence_length step_ind step_batch r = (Ok tt, r') ->
  (Z.of_nat step_ind < n_steps sequence_length)%Z.
Proof.
  unfold evaluate. intros He.
  apply bind_ok in He as (? & ? & _ & He).
  apply bind_ok in He as (? & ? & _ & He).
  apply bind_ok in He as (? & ? & _ & He).
  apply bind_ok in He as (? & ? & _ & He).
  apply bind_ok in He as (? & ? & _ & He).
  apply bind_ok in He as (? & ? & Hc & _).
  destruct (Z.of_nat step_ind <? n_steps sequence_length)%Z eqn:E;
    [apply Z.ltb_lt in E; exact E | discriminate].
Qed.

Lemma train_step_ok_bound (step_ind : nat) (step_batch : tensor)
    (total total' : pynum) (r r' : run S) :
  train_step sequence_length inference_iterations step_ind step_batch total r
  = (Ok total', r') ->
  (Z.of_nat step_ind < n_steps sequence_length)%Z.
Proof.
  unfold train_step. intros Ht.
  apply bind_ok in Ht as (? & ? & _ & Ht).
  apply bind_ok in Ht as (? & ? & _ & Ht).
  apply bind_ok in Ht as (? & ? & _ & Ht).
  apply bind_ok in Ht as ([] & ? & He & _).
  eapply evaluate_ok_bound. exact He.
Qed.

(** X3. A batch of [train] completes only if it is a tensor of at least
    two dimensions whose first dimension, the number of frames, is at
    least two and at most [sequence_length]: with a single frame the total
    free energy is still the Python float [0.], which has no [data]; a
    frame beyond [sequence_length] falls outside the logged arrays. *)
Theorem batch_completes_only_within_sequence_length
    (n_batches batch_ind : nat) (batch : tensor) (r r' : run S) :
  train_batch sequence_length inference_iterations ipdb n_batches batch_ind batch r
  = (Ok tt, r') ->
  exists frames batch_size rest,
    shape batch = frames :: batch_size :: rest /\
    (2 <= frames)%nat /\
    (Z.of_nat frames <= sequence_length)%Z.
Proof.
  unfold train_batch. intros Hb.
  apply bind_ok in Hb as (total & r1 & Hseq & Hup).
  assert (Hvar : exists v, total = variable v).
  { unfold train_update in Hup. apply bind_ok in Hup as (v & ? & Hd & _).
    destruct total as [q | q]; [discriminate | eauto]. }
  destruct Hvar as [v ->].
  unfold train_sequence in Hseq.
  apply bind_ok in Hseq as (? & ? & _ & Hseq).
  apply bind_ok in Hseq as (first & ? & Hfirst & Hseq).
  apply lift_ok in Hfirst as [Hfirst ->].
  apply bind_ok in Hseq as (? & ? & _ & Hseq).
  apply bind_ok in Hseq as (? & ? & _ & Hseq).
  apply bind_ok in Hseq as (? & ? & _ & Hseq).
  apply bind_ok in Hseq as (? & ? & _ & Hseq).
  apply bind_ok in Hseq as (? & ? & _ & Hseq).
  apply bind_ok in Hseq as (? & ? & _ & Hseq).
  apply bind_ok in Hseq as (? & ? & Hrank & Hseq).
  apply bind_ok in Hseq as (frames & ? & Hrest & Hfold).
  apply lift_ok in Hrest as [Hrest ->].
  unfold first_of, rest_of, unbind0 in Hfirst, Hrest.
  destruct (shape batch) as [| d [| bs rest]] eqn:Hs; try discriminate.
  injection Hrest as <-.
  exists d, bs, rest. split; [reflexivity |].
  simpl numel_of in Hfirst, Hfold.
  set (fs := map (Tensor.mk (bs :: rest)) (chunks (bs * numel_of rest) d (data batch)))
    in *.
  assert (Hlen : length fs = d).
  { unfold fs. rewrite length_map. apply length_chunks. }
  assert (Hne : tl fs <> []).
  { intros Hnil. rewrite Hnil in Hfold. simpl in Hfold. discriminate. }
  destruct fs as [| f0 [| f1 fs']]; simpl in Hlen, Hne; try congruence.
  change (tl (f0 :: f1 :: fs')) with (f1 :: fs') in Hfold.
  split; [lia |].
  destruct (@last_enumerated _ (f1 :: fs') 0%nat) as [fr Hx]; [discriminate |].
  replace (0 + length (f1 :: fs') - 1)%nat with (d - 2)%nat in Hx by (simpl; lia).
  unfold enumerate in Hfold.
  destruct (foldM_ok_each Hfold Hx) as (a & s & b' & s' & Hbody).
  apply train_step_ok_bound in Hbody. unfold n_steps in Hbody. lia.
Qed.

(** X4. [train] checks its configuration after it has switched the model
    to training mode and before it touches any batch: with
    [inference_iterations] not positive it raises [AssertionError], and
    otherwise with [sequence_length] not positive it raises [ValueError];
    in both cases the log holds the switch to training mode only.  On an
    empty data loader with a valid configuration it returns having made no
    further call. *)
Theorem train_checks_configuration_first (data : list tensor) (r : run S) (s : S) :
  model_train (model r) = (Ok tt, s) ->
  ((inference_iterations <= 0)%Z ->
   train sequence_length inference_iterations ipdb data r
   = (Raise (AssertionError "Number of inference iterations must be positive."),
      Run s (calls r ++ [call_train]))) /\
  ((0 < inference_iterations)%Z -> (sequence_length <= 0)%Z ->
   train sequence_length inference_iterations ipdb data r
   = (Raise (ValueError "negative dimensions are not allowed"),
      Run s (calls r ++ [call_train]))) /\
  ((0 < inference_iterations)%Z -> (0 < sequence_length)%Z ->
   train sequence_length inference_iterations ipdb [] r
   = (Ok tt, Run s (calls r ++ [call_train]))).
Proof.
  intros Hm. unfold train, bind, on_model, zoom, log, raise, ret, n_inf_iter, n_steps.
  rewrite Hm. simpl.
  split; [| split].
  - intros Hi. destruct (0 <? inference_iterations)%Z eqn:E;
      [apply Z.ltb_lt in E; lia | reflexivity].
  - intros Hi Hs. destruct (0 <? inference_iterations)%Z eqn:E;
      [| apply Z.ltb_ge in E; lia].
    destruct (sequence_length - 1 <? 0)%Z eqn:E';
      [reflexivity | apply Z.ltb_ge in E'; lia].
  - intros Hi Hs. destruct (0 <? inference_iterations)%Z eqn:E;
      [| apply Z.ltb_ge in E; lia].
    destruct (sequence_length - 1 <? 0)%Z eqn:E';
      [apply Z.ltb_lt in E'; lia | reflexivity].
Qed.

(** The composition rules of [appends], applied as far as they go. *)
Ltac appends_auto :=
  repeat first
    [ apply appends_ret
    | apply appends_raise
    | apply appends_lift
    | apply appends_on_model
    | apply appends_log; reflexivity
    | apply appends_bind; [| intros ?]
    | apply appends_for_each; intros [? ?]
    | match goal with
      | |- appends _ (if ?b then _ else _) => destruct b
      | |- appends _ (match ?x with _ => _ end) => destruct x
      end ].

(** X5. Whatever the model does, [validate] only records the switch to
    evaluation mode and completed calls of [re_init], [infer], [generate]
    and [step]: it never calls an optimizer and never runs a backward
    pass. *)
Theorem validate_never_updates (data : list tensor) :
  appends (fun c => validation_call c = true) (validate (S := S) data).
Proof. unfold validate. appends_auto. Qed.

Lemma occurrences_app (p : call -> bool) (l1 l2 : list call) :
  occurrences p (l1 ++ l2) = (occurrences p l1 + occurrences p l2)%nat.
Proof. unfold occurrences. rewrite List.filter_app, length_app. reflexivity. Qed.

Lemma counted_ret {A} (p : call -> bool) (a : A) : counted p 0 (ret (S := run S) a).
Proof. intros r. exists []. simpl. rewrite app_nil_r. split; reflexivity. Qed.

Lemma counted_raise {A} (p : call -> bool) (n : nat) (e : exn) :
  counted p n (raise (S := run S) (A := A) e).
Proof. intros r. exists []. simpl. rewrite app_nil_r. split; [reflexivity | discriminate]. Qed.

Lemma counted_lift {A} (p : call -> bool) (x : result A) :
  counted p 0 (lift (S := run S) x).
Proof. intros r. exists []. simpl. rewrite app_nil_r. split; reflexivity. Qed.

Lemma counted_log (p : call -> bool) (c : call) :
  counted p (if p c then 1 else 0) (log (S := S) c).
Proof.
  intros r. exists [c]. simpl. split; [reflexivity |].
  intros _. unfold occurrences. simpl. destruct (p c); reflexivity.
Qed.

Lemma counted_on_model {A} (p : call -> bool) (m : M S A) : counted p 0 (on_model m).
Proof.
  intros r. exists []. unfold on_model, zoom.
  destruct (m (model r)) as [x s]. simpl. rewrite app_nil_r. split; reflexivity.
Qed.

Lemma counted_bind {A B} (p : call -> bool) (n1 n2 : nat)
    (m : M (run S) A) (k : A -> M (run S) B) :
  counted p n1 m -> (forall a, counted p n2 (k a)) -> counted p (n1 + n2) (bind m k).
Proof.
  intros Hm Hk r. unfold bind.
  destruct (Hm r) as (l1 & E1 & C1).
  destruct (m r) as [[a | e] r1]; simpl in *.
  - destruct (Hk a r1) as (l2 & E2 & C2).
    exists (l1 ++ l2). rewrite E2, E1, app_assoc. split; [reflexivity |].
    intros Hok. rewrite occurrences_app, C1, C2; auto.
  - exists l1. split; [exact E1 | discriminate].
Qed.

Lemma counted_eq {A} (p : call -> bool) (n n' : nat) (m : M (run S) A) :
  counted p n m -> n = n' -> counted p n' m.
Proof. intros Hm <-. exact Hm. Qed.

(** A step that counts nothing leaves the count to what follows. *)
Lemma counted_after {A B} (p : call -> bool) (n : nat)
    (m : M (run S) A) (k : A -> M (run S) B) :
  counted p 0 m -> (forall a, counted p n (k a)) -> counted p n (bind m k).
Proof. intros Hm Hk. apply (counted_bind Hm Hk). Qed.

(** A pure step passes its value on. *)
Lemma counted_after_lift {A B} (p : call -> bool) (n : nat)
    (x : result A) (k : A -> M (run S) B) :
  (forall a, x = Ok a -> counted p n (k a)) -> counted p n (bind (lift x) k).
Proof.
  intros Hk r. unfold bind, lift. destruct x as [a | e].
  - apply (Hk a eq_refl).
  - exists []. simpl. rewrite app_nil_r. split; [reflexivity | discriminate].
Qed.

Lemma counted_for_each {A} (p : call -> bool) (n : nat) (l : list A)
    (body : A -> M (run S) unit) :
  (forall x, counted p n (body x)) -> counted p (length l * n) (for_each l body).
Proof.
  intros Hb. induction l as [| x l IH]; simpl.
  - apply counted_ret.
  - apply counted_bind; [apply Hb | intros _; exact IH].
Qed.

Lemma counted_foldM {A B} (p : call -> bool) (n : nat) (l : list A) (acc : B)
    (body : A -> B -> M (run S) B) :
  (forall x b, counted p n (body x b)) -> counted p (length l * n) (foldM l acc body).
Proof.
  intros Hb. revert acc. induction l as [| x l IH]; intros acc; simpl.
  - apply counted_ret.
  - apply counted_bind; [apply Hb | intros b; apply IH].
Qed.

(** The composition rules of [counted], applied as far as they go. *)
Ltac counted_auto :=
  repeat first
    [ apply counted_ret
    | apply counted_raise
    | apply counted_lift
    | apply counted_on_model
    | apply counted_log
    | eapply counted_bind; [| intros ?]
    | eapply counted_for_each; intros ?
    | match goal with
      | |- counted _ _ (if ?b then _ else _) => destruct b
      | |- counted _ _ (match ?x with _ => _ end) => destruct x
      end ].

(** The calls of [p] in one sequence step, with [k] of them per evaluation
    of the free energy, [i] per inference call and [c] in the rest of the
    step. *)
Lemma train_step_counted (p : call -> bool) (step_ind : nat) (step_batch : tensor)
    (total : pynum) :
  exists n,
    counted p n
      (train_step sequence_length inference_iterations step_ind step_batch total) /\
    n = ((if p call_inference_mode then 1 else 0)
         + (if p (call_optimizer inf_opt zero_current_grad) then 1 else 0)
         + (Z.to_nat inference_iterations + 1)
           * ((if p call_generate then 1 else 0) + (if p call_losses then 1 else 0)
              + (if p (call_backward true) then 1 else 0))
         + Z.to_nat inference_iterations * (if p call_infer then 1 else 0)
         + (if p (call_optimizer inf_opt collect) then 1 else 0)
         + (if p call_generative_mode then 1 else 0)
         + (if p call_generate then 1 else 0)
         + (if p call_free_energy then 1 else 0)
         + (if p call_step then 1 else 0))%nat.
Proof.
  eexists. split.
  - unfold train_step, evaluate. counted_auto.
  - unfold n_inf_iter. rewrite length_seq. lia.
Qed.

Lemma train_update_counted (p : call -> bool) (batch_ind : nat) (total : pynum) :
  p print_nan = false -> p set_trace = false ->
  counted p (occurrences p updates) (train_update (S := S) ipdb batch_ind total).
Proof.
  intros Hp Ht. unfold train_update.
  apply counted_after.
  { unfold data_of. destruct total; [apply counted_raise | apply counted_ret]. }
  intros x. apply counted_after.
  { destruct (isnan x); [| apply counted_ret].
    eapply counted_eq; [counted_auto |]. rewrite Hp, Ht. reflexivity. }
  intros _. eapply counted_eq; [counted_auto |].
  unfold occurrences, updates. simpl.
  repeat match goal with |- context [if p ?c then _ else _] => destruct (p c) end;
    reflexivity.
Qed.

Lemma length_enumerate {A} (l : list A) : length (enumerate l) = length l.
Proof. unfold enumerate. rewrite length_combine, length_seq. lia. Qed.

Lemma rest_of_length (batch : tensor) (frames : nat) (rest : list nat)
    (fs : list tensor) :
  shape batch = frames :: rest -> rest_of batch = Ok fs ->
  length fs = (frames - 1)%nat.
Proof.
  unfold rest_of, unbind0. intros -> Hr. injection Hr as <-.
  destruct frames as [| n]; [reflexivity |].
  simpl. rewrite length_map, length_chunks. lia.
Qed.

(** The calls of [p] in a batch that completes, for a [p] that holds of no
    call outside the loop over sequence steps. *)
Lemma train_batch_counted (p : call -> bool) (n_batches batch_ind : nat)
    (batch : tensor) (frames : nat) (rest : list nat) (n : nat) :
  shape batch = frames :: rest ->
  (forall i j, p (print_iteration i j) = false) ->
  p call_re_init = false ->
  (forall o, p (call_optimizer o zero_stored_grad) = false) ->
  (forall o, p (call_optimizer o zero_current_grad) = false) ->
  p print_nan = false -> p set_trace = false ->
  occurrences p updates = 0%nat ->
  (forall step_ind step_batch total,
      counted p n (train_step sequence_length inference_iterations
                     step_ind step_batch total)) ->
  counted p ((frames - 1) * n)
    (train_batch sequence_length inference_iterations ipdb n_batches batch_ind batch).
Proof.
  intros Hs Hpi Hre Hzs Hzc Hpn Hst Hup Hstep.
  unfold train_batch.
  eapply counted_eq; [eapply counted_bind |].
  - unfold train_sequence.
    apply counted_after.
    { eapply counted_eq; [apply counted_log | rewrite Hpi; reflexivity]. }
    intros _. apply counted_after_lift. intros first _.
    apply counted_after; [apply counted_on_model |]. intros _.
    apply counted_after.
    { eapply counted_eq; [apply counted_log | rewrite Hre; reflexivity]. }
    intros _. apply counted_after.
    { eapply counted_eq; [apply counted_log | rewrite Hzs; reflexivity]. }
    intros _. apply counted_after.
    { eapply counted_eq; [apply counted_log | rewrite Hzc; reflexivity]. }
    intros _. apply counted_after.
    { eapply counted_eq; [apply counted_log | rewrite Hzs; reflexivity]. }
    intros _. apply counted_after.
    { eapply counted_eq; [apply counted_log | rewrite Hzc; reflexivity]. }
    intros _. apply counted_after.
    { destruct (shape batch) as [| ? [| ? ?]];
        first [apply counted_raise | apply counted_ret]. }
    intros _. apply counted_after_lift. intros fs Hfs.
    eapply counted_eq.
    + apply counted_foldM. intros [step_ind step_batch] total. apply Hstep.
    + rewrite length_enumerate, (rest_of_length Hs Hfs). reflexivity.
  - intros total. apply train_update_counted; assumption.
  - rewrite Hup. lia.
Qed.

(** X6. In a batch of [train] that completes, on [frames] frames with
    [n_inf_iter] inference iterations, the model has inferred
    [(frames - 1) * n_inf_iter] times and generated
    [(frames - 1) * (n_inf_iter + 2)] times, the inference optimizer has
    collected gradients [frames - 1] times, once per sequence step, and
    each optimizer has made exactly one step. *)
Theorem completed_batch_call_counts
    (n_batches batch_ind : nat) (batch : tensor) (r r' : run S)
    (frames : nat) (rest : list nat) :
  train_batch sequence_length inference_iterations ipdb n_batches batch_ind batch r
  = (Ok tt, r') ->
  shape batch = frames :: rest ->
  exists l,
    calls r' = calls r ++ l /\
    occurrences is_infer l = ((frames - 1) * Z.to_nat inference_iterations)%nat /\
    occurrences is_generate l
    = ((frames - 1) * (Z.to_nat inference_iterations + 2))%nat /\
    occurrences is_inf_collect l = (frames - 1)%nat /\
    steps inf_opt l = 1%nat /\
    steps gen_opt l = 1%nat.
Proof.
  intros Hb Hs.
  destruct (train_batch_log n_batches batch_ind batch r) as (l & El & Hl).
  rewrite Hb in El, Hl. simpl in El, Hl.
  exists l. split; [exact El |].
  assert (Hcount : forall p n,
             counted p ((frames - 1) * n)
               (train_batch sequence_length inference_iterations ipdb
                  n_batches batch_ind batch) ->
             occurrences p l = ((frames - 1) * n)%nat).
  { intros p n Hc. destruct (Hc r) as (l' & El' & Hl').
    rewrite Hb in El', Hl'. simpl in El', Hl'.
    rewrite El in El'. apply app_inv_head in El'. subst l'.
    apply Hl'. reflexivity. }
  split; [| split; [| split]].
  - apply Hcount. apply (train_batch_counted (p := is_infer) n_batches batch_ind Hs);
      try reflexivity; try (intros; reflexivity).
    intros step_ind step_batch total.
    destruct (train_step_counted is_infer step_ind step_batch total) as (n & Hn & ->).
    eapply counted_eq; [exact Hn |]. simpl. lia.
  - apply Hcount. apply (train_batch_counted (p := is_generate) n_batches batch_ind Hs);
      try reflexivity; try (intros; reflexivity).
    intros step_ind step_batch total.
    destruct (train_step_counted is_generate step_ind step_batch total)
      as (n & Hn & ->).
    eapply counted_eq; [exact Hn |]. simpl. lia.
  - replace (frames - 1)%nat with ((frames - 1) * 1)%nat by lia.
    apply Hcount.
    apply (train_batch_counted (p := is_inf_collect) n_batches batch_ind Hs);
      try reflexivity; try (intros [] ; reflexivity); try (intros; reflexivity).
    intros step_ind step_batch total.
    destruct (train_step_counted is_inf_collect step_ind step_batch total)
      as (n & Hn & ->).
    eapply counted_eq; [exact Hn |]. simpl. lia.
  - destruct Hl as (pre & -> & Fp).
    rewrite !steps_app, !(no_step_steps _ Fp). split; reflexivity.
Qed.

(** With a model whose [re_init] never returns, [train] stops in the
    first batch, before any call to an optimizer. *)
Lemma train_stops_at_failing_re_init
    (batch : tensor) (rest : list tensor) (r : run S) :
  (forall args s, is_ok (fst (model_re_init args s)) = false) ->
  is_ok (fst (train sequence_length inference_iterations ipdb (batch :: rest) r))
  = false /\
  exists l,
    calls (snd (train sequence_length inference_iterations ipdb (batch :: rest) r))
    = calls r ++ l /\
    Forall (fun c => startup_call c = true) l.
Proof.
  intros Hre.
  unfold train, bind, on_model, zoom, log, raise, ret.
  destruct (model_train (model r)) as [[[] | e] s0]; simpl.
  2: { split; [reflexivity |]. exists []. rewrite app_nil_r.
       split; [reflexivity | constructor]. }
  destruct (0 <? n_inf_iter inference_iterations)%Z; simpl.
  2: { split; [reflexivity |]. exists [call_train]. split; [reflexivity |].
       repeat constructor. }
  destruct (n_steps sequence_length <? 0)%Z; simpl.
  1: { split; [reflexivity |]. exists [call_train]. split; [reflexivity |].
       repeat constructor. }
  unfold bind, train_batch, train_sequence, bind, log, lift, on_model, zoom. simpl.
  destruct (first_of batch) as [first | e]; simpl.
  2: { split; [reflexivity |]. eexists [_; _]. split.
       - rewrite <- app_assoc. reflexivity.
       - repeat constructor. }
  specialize (Hre [first] s0).
  destruct (model_re_init [first] s0) as [[[] | e] s1]; simpl in Hre;
    [discriminate |].
  simpl. split; [reflexivity |]. eexists [_; _]. split.
  - rewrite <- app_assoc. reflexivity.
  - repeat constructor.
Qed.

End TrainingProtocol.

(** ** Training the SVG model *)

Section TrainingSVG.
Context {learned : Learned} {sampling : Sampling} {networks : Networks}
        {inherited : TrainVal.Inherited}.
Import TrainVal Spec Trace.

(** [SVG.re_init] returns on no argument list and in no state. *)
Lemma svg_re_init_never_returns (args : list tensor) (w : world SVG.t) :
  is_ok (fst (SVG.re_init args w)) = false.
Proof.
  unfold SVG.re_init.
  destruct args as [| input [| ? ?]]; try reflexivity.
  unfold bind.
  destruct (SVG.on_level0 LSTMLatentLevel.re_init w) as [[[] | e] w1];
    [| reflexivity].
  unfold SVG.on_decoder_lstm, on_attr, zoom, LSTMNetwork.re_init, bind, self,
    set_self, SVG.getattr, raise.
  simpl. reflexivity.
Qed.

(** X7. With the [SVG] model, [train] on a data loader that has at least
    one batch never returns, whatever the configuration, the data and the
    answers to the debugger: the first batch fails at the latest in
    [model.re_init], so that the log holds nothing but the switch to
    training mode and the announcement of the first batch: no optimizer is
    ever called. *)
Theorem train_never_returns_on_svg
    (sequence_length inference_iterations : Z) (ipdb : nat -> debugger_command)
    (batch : tensor) (rest : list tensor) (r : run (world SVG.t)) :
  is_ok (fst (train sequence_length inference_iterations ipdb (batch :: rest) r))
  = false /\
  exists l,
    calls (snd (train sequence_length inference_iterations ipdb (batch :: rest) r))
    = calls r ++ l /\
    Forall (fun c => startup_call c = true) l.
Proof.
  apply train_stops_at_failing_re_init.
  intros args w. apply svg_re_init_never_returns.
Qed.

End TrainingSVG.

(** ** Framing: what a computation leaves alone *)

Section Framing.
Import Frame.


Lemma invariant_ret {O A B} (f : O -> B) (a : A) : invariant f (ret (S := world O) a).
Proof. intros w. reflexivity. Qed.

Lemma invariant_raise {O A B} (f : O -> B) (e : exn) :
  invariant f (raise (S := world O) (A := A) e).
Proof. intros w. reflexivity. Qed.

Lemma invariant_lift {O A B} (f : O -> B) (x : result A) :
  invariant f (lift (S := world O) x).
Proof. intros w. reflexivity. Qed.

Lemma invariant_self {O B} (f : O -> B) : invariant f (self (O := O)).
Proof. intros w. reflexivity. Qed.

Lemma invariant_attr {O A B} (f : O -> B) (name : string) (o : option A) :
  invariant f (FullyConnectedLatentVariable.attr (S := world O) name o).
Proof. intros w. destruct o; reflexivity. Qed.

Lemma invariant_bind {O A A' B} (f : O -> B) (m : M (world O) A)
    (k : A -> M (world O) A') :
  invariant f m -> (forall a, invariant f (k a)) -> invariant f (bind m k).
Proof.
  intros Hm Hk w. unfold bind. specialize (Hm w).
  destruct (m w) as [[a | e] w1]; simpl in *.
  - rewrite (Hk a w1). exact Hm.
  - exact Hm.
Qed.

(** A call on an attribute leaves alone what does not depend on the
    attribute. *)
Lemma invariant_on_attr {O T A B} (f : O -> B) (proj : O -> T) (upd : T -> O -> O)
    (m : M (world T) A) :
  (forall t o, f (upd t o) = f o) -> invariant f (on_attr proj upd m).
Proof.
  intros Hf w. unfold on_attr, zoom.
  destruct (m _) as [r w']. simpl. apply Hf.
Qed.

(** A call on an attribute leaves alone what depends on the attribute
    through a part that the call leaves alone. *)
Lemma invariant_through {O T A B C} (f : O -> B) (g : T -> C)
    (proj : O -> T) (upd : T -> O -> O) (m : M (world T) A) :
  (forall t o, g t = g (proj o) -> f (upd t o) = f o) ->
  invariant g m -> invariant f (on_attr proj upd m).
Proof.
  intros Hf Hm w. unfold on_attr, zoom.
  specialize (Hm (World (proj (obj w)) (rng w))).
  destruct (m _) as [r w']. simpl in *. apply Hf. exact Hm.
Qed.












(** Replacing the object by an update of itself leaves alone what the
    update does not change. *)
Lemma invariant_update {O A B} (f : O -> B) (g : O -> O) (k : O -> M (world O) A) :
  (forall o, f (g o) = f o) -> (forall m, invariant f (k m)) ->
  invariant f (bind self (fun m => bind (set_self (g m)) (fun _ => k m))).
Proof.
  intros Hg Hk w. unfold bind, self, set_self. simpl.
  rewrite (Hk (obj w) (World (g (obj w)) (rng w))). simpl. apply Hg.
Qed.

End Framing.

(** The composition rules of [invariant], applied as far as they go. *)
Ltac invariant_auto :=
  repeat first
    [ apply invariant_ret
    | apply invariant_raise
    | apply invariant_lift
    | apply invariant_self
    | apply invariant_attr
    | apply invariant_on_attr; reflexivity
    | apply invariant_update; [intros ?; reflexivity | intros ?]
    | apply invariant_bind; [| intros ?]
    | match goal with
      | |- Frame.invariant _ (if ?b then _ else _) => destruct b
      | |- Frame.invariant _ (match ?x with _ => _ end) => destruct x
      end ].



(** ** What the methods of the latent variable leave alone *)

Section LatentFrames.
Context {learned : Learned} {sampling : Sampling}.
Import FullyConnectedLatentVariable Frame.
Lemma sample_invariant (n : nat) (resample : bool) :
  invariant (fun d => (Normal.mean d, Normal.log_var d)) (Normal.sample n resample).
Proof.
  intros w. destruct (Normal.sample n resample w) as [r w'] eqn:Hs. simpl.
  apply sample_keeps_parameters in Hs as [Hm Hv]. rewrite Hm, Hv. reflexivity.
Qed.

(** No method of the latent variable changes its parameter lists. *)
Lemma latent_infer_keeps_partition (input : tensor) :
  invariant latent_partition (infer input).
Proof. unfold infer, on_approx_post. invariant_auto. Qed.

Lemma latent_generate_keeps_partition
    (generate_input : option tensor) (gen : bool) (n_samples : nat) :
  invariant latent_partition (generate generate_input gen n_samples).
Proof. unfold generate, on_approx_post, on_prior. invariant_auto. Qed.

Lemma latent_re_init_approx_posterior_keeps_partition :
  invariant latent_partition re_init_approx_posterior.
Proof. unfold re_init_approx_posterior, on_approx_post. invariant_auto. Qed.

Lemma latent_re_init_keeps_partition : invariant latent_partition re_init.
Proof.
  unfold re_init, on_prior. apply invariant_bind.
  - apply latent_re_init_approx_posterior_keeps_partition.
  - intros []. invariant_auto.
Qed.

Lemma latent_step_keeps_partition : invariant latent_partition step.
Proof. unfold step. invariant_auto. Qed.

(** X8. No method of the latent variable changes its parameter lists:
    after [infer], [generate], [re_init], [re_init_approx_posterior] or
    [step], whether the call returns or raises,
    [inference_parameters()] and [generative_parameters()] are what they
    were before. *)
Theorem latent_methods_keep_partition
    (input : tensor) (generate_input : option tensor) (gen : bool) (n_samples : nat) :
  invariant latent_partition (infer input) /\
  invariant latent_partition (generate generate_input gen n_samples) /\
  invariant latent_partition re_init /\
  invariant latent_partition re_init_approx_posterior /\
  invariant latent_partition step.
Proof.
  split; [apply latent_infer_keeps_partition |].
  split; [apply latent_generate_keeps_partition |].
  split; [apply latent_re_init_keeps_partition |].
  split; [apply latent_re_init_approx_posterior_keeps_partition |].
  apply latent_step_keeps_partition.
Qed.

(** X9. Inference and generation keep to their own distribution: [infer]
    never changes the prior, [generate] never changes the mean and the
    log-variance of the approximate posterior (also when it samples from
    it), and [re_init_approx_posterior] never changes the prior; this holds
    whether the call returns or raises. *)
Theorem latent_methods_keep_to_their_distribution
    (input : tensor) (generate_input : option tensor) (gen : bool) (n_samples : nat) :
  invariant prior (infer input) /\
  invariant posterior_parameters (generate generate_input gen n_samples) /\
  invariant prior re_init_approx_posterior.
Proof.
  unfold infer, generate, re_init_approx_posterior, on_approx_post, on_prior.
  split; [| split].
  - invariant_auto.
  - invariant_auto.
    apply (invariant_through (g := fun d => (Normal.mean d, Normal.log_var d))).
    + intros d lv Hd. unfold posterior_parameters. simpl. exact Hd.
    + apply sample_invariant.
  - invariant_auto.
Qed.



End LatentFrames.

(** ** Direct inference and construction of the latent variable *)

Section LatentDirect.
Context {learned : Learned} {sampling : Sampling}.
Import FullyConnectedLatentVariable.

(** X11. With the ['direct'] procedure [infer] forgets the previous
    estimate: started from the same generator state on two latent
    variables that differ only in their approximate posterior (its mean,
    log-variance and stored noise), it gives the same result or raises the
    same exception, and when it returns the two latent variables have
    become equal. *)
Theorem direct_infer_forgets_previous_posterior
    (lv : t) (d : Normal.t) (input : tensor) (k : nat) :
  is_direct (inference_procedure lv) = true ->
  fst (infer input (World (set_approx_post d lv) k))
  = fst (infer input (World lv k)) /\
  (is_ok (fst (infer input (World lv k))) = true ->
   snd (infer input (World (set_approx_post d lv) k))
   = snd (infer input (World lv k))).
Proof.
  intros Hdir.
  unfold infer, bind, self, lift, on_approx_post, on_attr, zoom,
    Normal.assign_mean, Normal.assign_log_var, Normal.sample, Normal.draw,
    ret, raise.
  simpl. rewrite Hdir.
  destruct (FullyConnectedLayer.forward (approx_post_mean lv) input) as [m | e];
    simpl; [| split; [reflexivity | discriminate]].
  destruct (FullyConnectedLayer.forward (approx_post_log_var lv) input) as [v | e];
    simpl; [| split; [reflexivity | discriminate]].
  unfold self, bind, lift, ret. simpl.
  destruct (Normal.noise d), (Normal.noise (approx_post lv)); simpl;
    destruct (mul _ _) as [se | e]; simpl;
    try (split; [reflexivity | discriminate]);
    destruct (add m se); simpl; split; first [reflexivity | discriminate].
Qed.


(** X13. After a call of [infer] with the ['direct'] procedure that
    returns, [approx_posterior_parameters()] returns the outputs of the
    layers [approx_post_mean] and [approx_post_log_var] on the input of
    [infer], in this order, whatever the approximate posterior was
    before. *)
Theorem posterior_parameters_after_direct_infer
    (input : tensor) (w w' : world t) (out : tensor) :
  is_direct (inference_procedure (obj w)) = true ->
  infer input w = (Ok out, w') ->
  exists m v,
    FullyConnectedLayer.forward (approx_post_mean (obj w)) input = Ok m /\
    FullyConnectedLayer.forward (approx_post_log_var (obj w)) input = Ok v /\
    approx_posterior_parameters (obj w') = Ok [m; v].
Proof.
  intros Hdir Hi. unfold infer in Hi.
  apply bind_ok in Hi as (lv & w1 & Hself & Hi).
  unfold self in Hself. injection Hself as <- <-.
  apply bind_ok in Hi as (m & w1 & Hm & Hi). apply lift_ok in Hm as [Hm ->].
  apply bind_ok in Hi as (v & w1 & Hv & Hi). apply lift_ok in Hv as [Hv ->].
  rewrite Hdir in Hi.
  apply bind_ok in Hi as ([] & w1 & Hupd & Hi).
  unfold bind, on_approx_post, on_attr, zoom, Normal.assign_mean,
    Normal.assign_log_var in Hupd.
  simpl in Hupd. injection Hupd as <-.
  unfold on_approx_post, on_attr, zoom in Hi. simpl in Hi.
  destruct (Normal.sample 1 true _) as [r wd] eqn:Hs.
  apply sample_keeps_parameters in Hs as [Hmean Hvar]. simpl in Hmean, Hvar.
  injection Hi as _ <-.
  exists m, v. split; [exact Hm |]. split; [exact Hv |].
  unfold approx_posterior_parameters. simpl. rewrite Hmean, Hvar. reflexivity.
Qed.

End LatentDirect.

(** ** Construction of the model, continued *)

Section ModelConstruction.
Context {learned : Learned} {sampling : Sampling} {networks : Networks}.

(** X14. [_construct] reads the model type before the inference procedure
    and both before it builds anything: a missing ['model_type'] is a
    [KeyError] and one that is not a string an [AttributeError]; with a
    string as model type, supported or not, a missing
    ['inference_procedure'] is a [KeyError] and one that is not a string an
    [AttributeError]; in all four cases no parameter has been created. *)
Theorem construct_reads_configuration_in_order (cfg : gmap string pyval) (c0 : nat) :
  (cfg !! "model_type" = None ->
   SVG._construct cfg c0 = (Raise (KeyError "model_type"), c0)) /\
  (forall v, cfg !! "model_type" = Some v -> (forall s, v <> VStr s) ->
   SVG._construct cfg c0 = (Raise (AttributeError "lower"), c0)) /\
  (forall s, cfg !! "model_type" = Some (VStr s) ->
   cfg !! "inference_procedure" = None ->
   SVG._construct cfg c0 = (Raise (KeyError "inference_procedure"), c0)) /\
  (forall s v, cfg !! "model_type" = Some (VStr s) ->
   cfg !! "inference_procedure" = Some v -> (forall p, v <> VStr p) ->
   SVG._construct cfg c0 = (Raise (AttributeError "lower"), c0)).
Proof.
  unfold SVG._construct, bind, getitem, lower, ret, raise.
  repeat split.
  - intros ->. reflexivity.
  - intros v -> Hv. destruct v as [s | z |]; [destruct (Hv s eq_refl) | |]; reflexivity.
  - intros s -> ->. reflexivity.
  - intros s v -> -> Hv.
    destruct v as [p | z |]; [destruct (Hv p eq_refl) | |]; reflexivity.
Qed.

(** The identities handed out during the construction of a model that
    has [e] encoder, [d] decoder and [l1], [l2], [l3] recurrent parameters,
    listed as its parameter lists give them, are without repetition the
    identities from [c0] on. *)
Lemma fresh_parameters_layout (c0 e d l1 l2 l3 : nat) :
  let a := (c0 + e + d + l1 + l2)%nat in
  let all :=
    ((seq c0 e ++ seq (c0 + e + d) l1 ++ [a; 1 + a; 2 + a; 3 + a])
     ++ ((seq (c0 + e) d ++ seq (c0 + e + d + l1) l2 ++ [4 + a; 5 + a; 6 + a; 7 + a])
         ++ seq (8 + a) l3)
     ++ [8 + (a + l3); 9 + (a + l3)])%nat in
  NoDup all /\ forall q, In q all <-> (c0 <= q < 10 + (a + l3))%nat.
Proof.
  intros a all. subst all. split.
  - repeat match goal with
           | |- NoDup [] => apply NoDup_nil_2
           | |- NoDup (seq _ _) => apply NoDup_seq
           | |- NoDup (_ ++ _) => apply NoDup_app; split; [| split]
           | |- NoDup (_ :: _) => apply NoDup_cons; split
           | |- forall x, _ ∈ _ -> _ =>
               let q := fresh "q" in
               let Hi := fresh "Hi" in
               let Hk := fresh "Hk" in
               intros q Hi Hk;
               apply list_elem_of_In in Hi; apply list_elem_of_In in Hk;
               params_arith
           | |- _ ∉ _ =>
               let Hk := fresh "Hk" in
               intros Hk; apply list_elem_of_In in Hk; params_arith
           end.
  - intros q. split.
    + intros Hin. params_arith.
    + intros Hq. rewrite <- ?app_assoc.
      repeat match goal with
             | |- In q (seq ?b ?n ++ _) =>
                 let D := fresh "D" in
                 assert (D : (b <= q < b + n)%nat \/ ~ (b <= q < b + n)%nat) by lia;
                 destruct D as [D | D];
                 [apply in_or_app; left; apply List.in_seq; exact D
                 | apply in_or_app; right]
             | |- In q ((?x :: _) ++ _) =>
                 let D := fresh "D" in
                 destruct (Nat.eq_dec x q) as [D | D]; [left; exact D | right]
             | |- In q (?x :: _) =>
                 let D := fresh "D" in
                 destruct (Nat.eq_dec x q) as [D | D]; [left; exact D | right]
             | |- In q ([] ++ _) => change (In q ([] ++ ?l)) with (In q l)
             | |- In q [] => exfalso; lia
             end.
Qed.

(** X15. The parameters of a constructed model are exactly the objects
    created during its construction, each of them once: the parameters in
    [inference_parameters()], in [generative_parameters()] and of
    [decoder_lstm_output], taken together, have no repetition and are the
    identities from the first one created to the last. *)
Theorem constructed_model_parameters_are_fresh
    (cfg : gmap string pyval) (s p : string) (c0 : nat) :
  cfg !! "model_type" = Some (VStr s) ->
  cfg !! "inference_procedure" = Some (VStr p) ->
  Spec.supported (lower_string s) ->
  exists m c1 inf gen,
    SVG._construct cfg c0 = (Ok m, c1) /\
    SVG.inference_parameters m = Ok inf /\
    SVG.generative_parameters m = Ok gen /\
    NoDup (inf ++ gen ++ FullyConnectedLayer.parameters (SVG.decoder_lstm_output m)) /\
    forall q,
      In q (inf ++ gen ++ FullyConnectedLayer.parameters (SVG.decoder_lstm_output m))
      <-> (c0 <= q < c1)%nat.
Proof.
  intros Ht Hp Hs.
  destruct Hs as [E | [E | E]]; run_construct Ht Hp; rewrite E; simpl;
    eexists _, _, _, _;
    (split; [reflexivity |]);
    (split; [run_parameters; reflexivity |]);
    (split; [run_parameters; reflexivity |]);
    unfold FullyConnectedLayer.parameters; simpl;
    apply fresh_parameters_layout.
Qed.

(** X16. Construction accepts any inference procedure, but only a
    ['direct'] model can infer: for a supported model type and an
    inference procedure whose lower-cased name is not ['direct'], the model
    is built, its latent variable is nevertheless a ['direct'] one without
    gate layers, and every call of [infer] raises [NotImplementedError]
    and leaves the model as it was. *)
Theorem only_direct_models_can_infer
    (cfg : gmap string pyval) (s p : string) (c0 : nat) :
  cfg !! "model_type" = Some (VStr s) ->
  cfg !! "inference_procedure" = Some (VStr p) ->
  Spec.supported (lower_string s) ->
  lower_string p <> "direct" ->
  exists m c1 level,
    SVG._construct cfg c0 = (Ok m, c1) /\
    SVG.inference_procedure m = lower_string p /\
    SVG.latent_levels m = [level] /\
    FullyConnectedLatentVariable.inference_procedure (LSTMLatentLevel.latent level)
    = "direct" /\
    FullyConnectedLatentVariable.approx_post_mean_gate (LSTMLatentLevel.latent level)
    = None /\
    FullyConnectedLatentVariable.approx_post_log_var_gate (LSTMLatentLevel.latent level)
    = None /\
    forall (observation : tensor) (k : nat),
      SVG.infer observation (World m k) = (Raise NotImplementedError, World m k).
Proof.
  intros Ht Hp Hs Hno.
  assert (Hcmp : String.eqb (lower_string p) "direct" = false).
  { apply String.eqb_neq. exact Hno. }
  destruct Hs as [E | [E | E]]; run_construct Ht Hp; rewrite E; simpl;
    eexists _, _, _;
    (split; [reflexivity |]);
    (split; [reflexivity |]);
    (split; [reflexivity |]);
    (split; [reflexivity |]);
    (split; [reflexivity |]);
    (split; [reflexivity |]);
    intros observation k;
    unfold SVG.infer, SVG._get_encoding_form, bind, self, raise; simpl;
    rewrite Hcmp; reflexivity.
Qed.

End ModelConstruction.

(** ** What the methods of the model leave alone *)

Section ModelFrames.
Context {learned : Learned} {sampling : Sampling} {networks : Networks}.
Import Frame.

(** A call on the first latent level leaves alone what does not depend on
    the latent levels. *)
Lemma invariant_on_level0 {A B} (f : SVG.t -> B) (m : M (world LSTMLatentLevel.t) A) :
  (forall ls o, f (SVG.set_latent_levels ls o) = f o) ->
  invariant f (SVG.on_level0 m).
Proof.
  intros Hf w. unfold SVG.on_level0.
  destruct (SVG.latent_levels (obj w)) as [| l ls]; [reflexivity |].
  destruct (m _) as [r w']. simpl. apply Hf.
Qed.

(** A call on the first latent level leaves alone what depends on the
    level through a part that the call leaves alone. *)
Lemma invariant_through_level0 {A B C} (f : SVG.t -> B) (g : LSTMLatentLevel.t -> C)
    (m : M (world LSTMLatentLevel.t) A) :
  (forall l l' ls o, SVG.latent_levels o = l :: ls -> g l' = g l ->
                     f (SVG.set_latent_levels (l' :: ls) o) = f o) ->
  invariant g m -> invariant f (SVG.on_level0 m).
Proof.
  intros Hf Hm w. unfold SVG.on_level0.
  destruct (SVG.latent_levels (obj w)) as [| l ls] eqn:Hl; [reflexivity |].
  specialize (Hm (World l (rng w))).
  destruct (m _) as [r w']. simpl in *. apply (Hf l); assumption.
Qed.

(** X17. Inference and generation work on separate parts of the model:
    [infer] never changes what [generate] reads besides the latent level
    (the encodings of the previous frame, the decoder LSTM and the output
    distribution), and [generate] never changes the encodings, those of the
    current frame and those of the previous one; this holds whether the
    call returns or raises. *)
Theorem infer_and_generate_work_on_separate_parts
    (observation : tensor) (gen : bool) (n_samples : nat) :
  invariant generation_state (SVG.infer observation) /\
  invariant encodings (SVG.generate gen n_samples).
Proof.
  unfold SVG.infer, SVG.generate, SVG._get_encoding_form, SVG.encode,
    SVG.on_decoder_lstm, SVG.on_output_dist.
  split;
    repeat first
      [ apply invariant_on_level0; reflexivity
      | progress invariant_auto ].
Qed.

(** Stepping a latent level always returns. *)
Lemma level_step_returns (w : world LSTMLatentLevel.t) :
  exists w', LSTMLatentLevel.step w = (Ok tt, w').
Proof.
  unfold LSTMLatentLevel.step, LSTMLatentLevel.on_latent,
    LSTMLatentLevel.on_inference_model, LSTMLatentLevel.on_generative_model,
    FullyConnectedLatentVariable.step, LSTMNetwork.step, on_attr, zoom, bind,
    self, set_self, ret.
  simpl. eexists. reflexivity.
Qed.

(** Without an encoding of the current frame, [step] raises. *)
Lemma step_without_encoding (w : world SVG.t) :
  SVG._h (obj w) = None -> SVG.latent_levels (obj w) <> [] ->
  fst (SVG.step w) = Raise (AttributeError "unsqueeze").
Proof.
  intros Hh Hl. unfold SVG.step, bind.
  unfold SVG.on_level0 at 1.
  destruct (SVG.latent_levels (obj w)) as [| l ls] eqn:El; [contradiction |].
  destruct (level_step_returns (World l (rng w))) as [wl ->].
  unfold SVG.on_decoder_lstm, on_attr, zoom, LSTMNetwork.step, bind, self,
    set_self, FullyConnectedLatentVariable.attr, raise.
  simpl. rewrite Hh. reflexivity.
Qed.

(** A call on the first latent level that returns leaves a level. *)
Lemma on_level0_ok {A} (m : M (world LSTMLatentLevel.t) A) (w w' : world SVG.t) (a : A) :
  SVG.on_level0 m w = (Ok a, w') -> SVG.latent_levels (obj w') <> [].
Proof.
  unfold SVG.on_level0.
  destruct (SVG.latent_levels (obj w)) as [| l ls]; [discriminate |].
  destruct (m _) as [r wl]. intros Hr. injection Hr as _ <-. discriminate.
Qed.

(** A call of [step] that returns has found an encoding of the current
    frame and has made it the encoding of the previous frame. *)
Lemma step_moves_encoding (w w' : world SVG.t) :
  SVG.step w = (Ok tt, w') ->
  encodings (obj w') = (None, None, SVG._h (obj w), SVG._skip (obj w)) /\
  (exists h, SVG._h (obj w) = Some h) /\
  SVG.latent_levels (obj w') <> [].
Proof.
  intros Hs.
  assert (Hkeep0 : forall A (m : M (world LSTMLatentLevel.t) A),
             invariant encodings (SVG.on_level0 m)).
  { intros A m. apply invariant_on_level0. reflexivity. }
  unfold SVG.step in Hs.
  apply bind_ok in Hs as ([] & w1 & H1 & Hs).
  pose proof (Hkeep0 _ LSTMLatentLevel.step w) as K1. rewrite H1 in K1. simpl in K1.
  apply bind_ok in Hs as ([] & w2 & H2 & Hs).
  assert (K2 : encodings (obj w2) = encodings (obj w1)).
  { assert (Hd : invariant encodings (SVG.on_decoder_lstm LSTMNetwork.step)).
    { unfold SVG.on_decoder_lstm. invariant_auto. }
    specialize (Hd w1). rewrite H2 in Hd. exact Hd. }
  apply bind_ok in Hs as (m2 & w3 & Hself & Hs).
  unfold self in Hself. injection Hself as <- <-.
  apply bind_ok in Hs as ([] & w3 & Hset & Hs).
  unfold set_self in Hset. injection Hset as <-.
  apply bind_ok in Hs as (m3 & w4 & Hself & Hs).
  unfold self in Hself. injection Hself as <- <-.
  apply bind_ok in Hs as ([] & w4 & Hset & Hs).
  unfold set_self in Hset. injection Hset as <-.
  apply bind_ok in Hs as (m4 & w5 & Hself & Hs).
  unfold self in Hself. injection Hself as <- <-.
  apply bind_ok in Hs as (prev & w5 & Hprev & Hs).
  apply attr_ok in Hprev as [Hprev ->]. simpl in Hprev.
  apply bind_ok in Hs as (x & w5 & Hx & Hs).
  apply lift_ok in Hx as [_ ->].
  apply bind_ok in Hs as (z & w5 & H5 & Hs).
  match type of H5 with
  | SVG.on_level0 ?m ?w0 = _ =>
      pose proof (Hkeep0 _ m w0) as K5; rewrite H5 in K5; simpl in K5
  end.
  match type of Hs with
  | SVG.on_level0 ?m ?w0 = _ =>
      pose proof (Hkeep0 _ m w0) as K6; rewrite Hs in K6; simpl in K6
  end.
  apply on_level0_ok in Hs as Hlevels.
  split; [| split; [| exact Hlevels]].
  - rewrite K6, K5. unfold encodings in *. simpl.
    injection K2 as -> -> _ _. injection K1 as -> -> _ _. reflexivity.
  - exists prev. rewrite <- Hprev.
    unfold encodings in K1, K2. injection K2 as -> _ _ _. injection K1 as -> _ _ _.
    reflexivity.
Qed.

(** X18. [step] consumes the encoding of the current frame: a call that
    returns has found one, has made it the encoding of the previous frame
    and has left none for the current frame; [step] called again before a
    new [infer] therefore raises an [AttributeError]. *)
Theorem step_consumes_the_encoding (w w' : world SVG.t) :
  SVG.step w = (Ok tt, w') ->
  encodings (obj w') = (None, None, SVG._h (obj w), SVG._skip (obj w)) /\
  (exists h, SVG._h (obj w) = Some h) /\
  fst (SVG.step w') = Raise (AttributeError "unsqueeze").
Proof.
  intros Hs. apply step_moves_encoding in Hs as (He & Hh & Hlevels).
  split; [exact He |]. split; [exact Hh |].
  apply step_without_encoding; [| exact Hlevels].
  unfold encodings in He. injection He as -> _ _ _. reflexivity.
Qed.

(** A call of [infer] that returns has stored the encoding of the
    observation, shifted by one half, as the encoding of the current
    frame. *)
Lemma infer_stores_encoding (observation : tensor) (w w' : world SVG.t) :
  SVG.infer observation w = (Ok tt, w') ->
  exists h skip,
    encoder_forward (arch (SVG.encoder (obj w))) (conv_params (SVG.encoder (obj w)))
      (sub_scalar observation 0.5)
    = Ok (h, skip) /\
    SVG._h (obj w') = Some h /\ SVG._skip (obj w') = Some skip.
Proof.
  intros Hi. unfold SVG.infer in Hi.
  apply bind_ok in Hi as (x & w1 & Hform & Hi).
  assert (Hx : x = sub_scalar observation 0.5 /\ w1 = w).
  { unfold SVG._get_encoding_form, bind, self in Hform.
    destruct (String.eqb _ _); [| discriminate].
    injection Hform as <- <-. split; reflexivity. }
  destruct Hx as [-> ->]. clear Hform.
  apply bind_ok in Hi as ([h skip] & w1 & Henc & Hi).
  unfold SVG.encode in Henc.
  apply bind_ok in Henc as (m & w2 & Hself & Henc).
  unfold self in Hself. injection Hself as <- <-.
  apply lift_ok in Henc as [Henc ->].
  apply bind_ok in Hi as (m1 & w1 & Hself & Hi).
  unfold self in Hself. injection Hself as <- <-.
  apply bind_ok in Hi as ([] & w1 & Hset & Hi).
  unfold set_self in Hset. injection Hset as <-.
  apply bind_ok in Hi as (m2 & w2 & Hself & Hi).
  unfold self in Hself. injection Hself as <- <-.
  apply bind_ok in Hi as (h0 & w2 & Hh & Hi).
  apply attr_ok in Hh as [_ ->].
  apply bind_ok in Hi as (z & w2 & Hlevel & Hi).
  injection Hi as <-.
  assert (K : invariant encodings (SVG.on_level0 (LSTMLatentLevel.infer h0))).
  { apply invariant_on_level0. reflexivity. }
  match type of Hlevel with
  | _ ?w0 = _ => specialize (K w0)
  end.
  rewrite Hlevel in K. unfold encodings in K. simpl in K.
  injection K as Kh Ks _ _.
  exists h, skip. split; [exact Henc |]. split; assumption.
Qed.

(** X19. The frame that [infer] has seen becomes the previous frame of the
    next step: when [infer] on an observation returns and the following
    [step] returns, the encodings of the previous frame that [generate]
    will read are the code and the skip connections that the encoder gives
    for the observation minus one half. *)
Theorem inferred_frame_becomes_previous_encoding
    (observation : tensor) (w w1 w2 : world SVG.t) :
  SVG.infer observation w = (Ok tt, w1) ->
  SVG.step w1 = (Ok tt, w2) ->
  exists h skip,
    encoder_forward (arch (SVG.encoder (obj w))) (conv_params (SVG.encoder (obj w)))
      (sub_scalar observation 0.5)
    = Ok (h, skip) /\
    SVG._prev_h (obj w2) = Some h /\
    SVG._prev_skip (obj w2) = Some skip /\
    SVG._h (obj w2) = None /\
    SVG._skip (obj w2) = None.
Proof.
  intros Hi Hs.
  apply infer_stores_encoding in Hi as (h & skip & Henc & Hh & Hk).
  apply step_moves_encoding in Hs as (He & _ & _).
  unfold encodings in He. rewrite Hh, Hk in He. injection He as -> -> -> ->.
  exists h, skip. repeat split; [exact Henc].
Qed.

(** The recurrent networks keep their parameters. *)
Lemma lstm_forward_keeps_parameters (x : tensor) :
  invariant LSTMNetwork.parameters (LSTMNetwork.forward x).
Proof.
  intros w. unfold LSTMNetwork.forward, bind, self, lift, set_self, ret. simpl.
  destruct (lstm_forward _ _ _); reflexivity.
Qed.

Lemma lstm_step_keeps_parameters : invariant LSTMNetwork.parameters LSTMNetwork.step.
Proof. intros w. reflexivity. Qed.

Lemma lstm_re_init_keeps_parameters :
  invariant LSTMNetwork.parameters LSTMNetwork.re_init.
Proof. intros w. reflexivity. Qed.

(** A call on a recurrent network of a level keeps the partition of the
    level when it keeps the parameters of the network. *)
Lemma level_partition_through_inference_model {A} (m : M (world LSTMNetwork.t) A) :
  invariant LSTMNetwork.parameters m ->
  invariant level_partition (LSTMLatentLevel.on_inference_model m).
Proof.
  intros Hm. unfold LSTMLatentLevel.on_inference_model.
  apply (invariant_through (g := LSTMNetwork.parameters)); [| exact Hm].
  intros n l Hn. unfold level_partition, LSTMLatentLevel.inference_parameters,
    LSTMLatentLevel.generative_parameters, LSTMLatentLevel.set_inference_model.
  cbn [LSTMLatentLevel.latent LSTMLatentLevel.inference_model
         LSTMLatentLevel.generative_model].
  rewrite Hn. reflexivity.
Qed.

Lemma level_partition_through_generative_model {A} (m : M (world LSTMNetwork.t) A) :
  invariant LSTMNetwork.parameters m ->
  invariant level_partition (LSTMLatentLevel.on_generative_model m).
Proof.
  intros Hm. unfold LSTMLatentLevel.on_generative_model.
  apply (invariant_through (g := LSTMNetwork.parameters)); [| exact Hm].
  intros n l Hn. unfold level_partition, LSTMLatentLevel.inference_parameters,
    LSTMLatentLevel.generative_parameters, LSTMLatentLevel.set_generative_model.
  cbn [LSTMLatentLevel.latent LSTMLatentLevel.inference_model
         LSTMLatentLevel.generative_model].
  rewrite Hn. reflexivity.
Qed.

Lemma level_partition_through_latent {A}
    (m : M (world FullyConnectedLatentVariable.t) A) :
  invariant latent_partition m ->
  invariant level_partition (LSTMLatentLevel.on_latent m).
Proof.
  intros Hm. unfold LSTMLatentLevel.on_latent.
  apply (invariant_through (g := latent_partition)); [| exact Hm].
  intros v l Hv.
  pose proof (f_equal fst Hv) as Hi. pose proof (f_equal snd Hv) as Hg.
  unfold latent_partition in Hi, Hg. cbn [fst snd] in Hi, Hg.
  unfold level_partition, LSTMLatentLevel.inference_parameters,
    LSTMLatentLevel.generative_parameters, LSTMLatentLevel.set_latent.
  cbn [LSTMLatentLevel.latent LSTMLatentLevel.inference_model
         LSTMLatentLevel.generative_model].
  rewrite Hi, Hg. reflexivity.
Qed.

(** The composition rules of [invariant] on a latent level. *)
Ltac level_partition_auto :=
  repeat first
    [ apply level_partition_through_inference_model;
      first [ apply lstm_forward_keeps_parameters
            | apply lstm_step_keeps_parameters
            | apply lstm_re_init_keeps_parameters ]
    | apply level_partition_through_generative_model;
      first [ apply lstm_forward_keeps_parameters
            | apply lstm_step_keeps_parameters
            | apply lstm_re_init_keeps_parameters ]
    | apply level_partition_through_latent;
      first [ apply latent_infer_keeps_partition
            | apply latent_generate_keeps_partition
            | apply latent_re_init_keeps_partition
            | apply latent_re_init_approx_posterior_keeps_partition
            | apply latent_step_keeps_partition ]
    | progress invariant_auto ].

(** No method of a latent level changes its parameter lists. *)
Lemma level_infer_keeps_partition (input : tensor) :
  invariant level_partition (LSTMLatentLevel.infer input).
Proof. unfold LSTMLatentLevel.infer. level_partition_auto. Qed.

Lemma level_generate_keeps_partition
    (generate_input : option tensor) (gen : bool) (n_samples : nat) :
  invariant level_partition (LSTMLatentLevel.generate generate_input gen n_samples).
Proof. unfold LSTMLatentLevel.generate. level_partition_auto. Qed.

Lemma level_step_keeps_partition : invariant level_partition LSTMLatentLevel.step.
Proof. unfold LSTMLatentLevel.step. level_partition_auto. Qed.

Lemma level_re_init_keeps_partition :
  invariant level_partition LSTMLatentLevel.re_init.
Proof. unfold LSTMLatentLevel.re_init. level_partition_auto. Qed.

Lemma level_re_init_approx_posterior_keeps_partition :
  invariant level_partition
    (LSTMLatentLevel.on_latent FullyConnectedLatentVariable.re_init_approx_posterior).
Proof. level_partition_auto. Qed.

(** A call on the first latent level keeps the partition of the model
    when it keeps the partition of the level. *)
Lemma model_partition_through_level0 {A} (m : M (world LSTMLatentLevel.t) A) :
  invariant level_partition m -> invariant model_partition (SVG.on_level0 m).
Proof.
  intros Hm.
  apply (invariant_through_level0 (g := level_partition)); [| exact Hm].
  intros l l' ls o Hl Hv.
  pose proof (f_equal fst Hv) as Hi. pose proof (f_equal snd Hv) as Hg.
  unfold level_partition in Hi, Hg. cbn [fst snd] in Hi, Hg.
  unfold model_partition, SVG.inference_parameters, SVG.generative_parameters,
    SVG.level0, SVG.set_latent_levels.
  cbn [SVG.latent_levels SVG.encoder SVG.decoder SVG.decoder_lstm rbind].
  rewrite Hl. cbn [rbind]. rewrite Hi, Hg. reflexivity.
Qed.

Lemma model_partition_through_decoder_lstm {A} (m : M (world LSTMNetwork.t) A) :
  invariant LSTMNetwork.parameters m ->
  invariant model_partition (SVG.on_decoder_lstm m).
Proof.
  intros Hm. unfold SVG.on_decoder_lstm.
  apply (invariant_through (g := LSTMNetwork.parameters)); [| exact Hm].
  intros n o Hn. unfold model_partition, SVG.inference_parameters,
    SVG.generative_parameters, SVG.level0, SVG.set_decoder_lstm.
  cbn [SVG.latent_levels SVG.encoder SVG.decoder SVG.decoder_lstm].
  rewrite Hn. reflexivity.
Qed.

(** The composition rules of [invariant] on the model. *)
Ltac model_partition_auto :=
  repeat first
    [ apply model_partition_through_level0;
      first [ apply level_infer_keeps_partition
            | apply level_generate_keeps_partition
            | apply level_step_keeps_partition
            | apply level_re_init_keeps_partition
            | apply level_re_init_approx_posterior_keeps_partition ]
    | apply model_partition_through_decoder_lstm;
      first [ apply lstm_forward_keeps_parameters
            | apply lstm_step_keeps_parameters
            | apply lstm_re_init_keeps_parameters ]
    | progress invariant_auto ].

(** X20. Running the model never changes what the optimizers were given:
    after [infer], [generate], [step] or [re_init], whether the call
    returns or raises, [inference_parameters()] and
    [generative_parameters()] are what they were before. *)
Theorem model_methods_keep_partition
    (observation : tensor) (gen : bool) (n_samples : nat) (args : list tensor) :
  invariant model_partition (SVG.infer observation) /\
  invariant model_partition (SVG.generate gen n_samples) /\
  invariant model_partition SVG.step /\
  invariant model_partition (SVG.re_init args).
Proof.
  unfold SVG.infer, SVG.generate, SVG.step, SVG.re_init, SVG._get_encoding_form,
    SVG.encode, SVG.on_output_dist.
  split; [| split; [| split]].
  - model_partition_auto.
  - model_partition_auto.
  - model_partition_auto.
  - destruct args as [| input [| second rest]]; model_partition_auto.
Qed.

End ModelFrames.
(** * Concrete runs *)

Section Runs.
#[local] Existing Instance Concrete.zero_learned.
#[local] Existing Instance Concrete.zero_sampling.
#[local] Existing Instance Concrete.zero_networks.
Import Concrete.

(** The concrete latent variables are those that [_construct] builds. *)
Lemma direct_latent_constructed :
  FullyConnectedLatentVariable._construct direct_config 0%nat
  = (Ok (direct_latent (Normal.re_init_value None None) (Normal.re_init_value None None)),
     8%nat).
Proof. reflexivity. Qed.


Lemma sm_mnist_model_type : sm_mnist_config !! "model_type" = Some (VStr "SM_MNIST").
Proof. unfold sm_mnist_config. apply lookup_insert_eq. Defined.

Lemma sm_mnist_inference_procedure :
  sm_mnist_config !! "inference_procedure" = Some (VStr "direct").
Proof.
  unfold sm_mnist_config. rewrite lookup_insert_ne by discriminate.
  apply lookup_insert_eq.
Defined.

Lemma sm_mnist_supported : Spec.supported (lower_string "SM_MNIST").
Proof. left. reflexivity. Defined.

(** On the model built for ['sm_mnist'], [re_init] on a first frame of
    shape [\[1; 1; 2; 2\]] raises [AttributeError]. *)
Lemma re_init_on_fresh_model :
  exists m c,
    SVG._construct sm_mnist_config 0%nat = (Ok m, c) /\
    fst (SVG.re_init [zeros [1; 1; 2; 2]%nat] (World m 0%nat))
    = Raise (AttributeError "get_encoding_form").
Proof.
  eexists _, _. split.
  - unfold SVG._construct, bind, getitem.
    rewrite sm_mnist_model_type, sm_mnist_inference_procedure. reflexivity.
  - vm_compute. reflexivity.
Qed.

(** C2, as stated, fails: with a prior of mean 2 (one entry, shape
    [\[1; 1; 1\]]), re-initialising the prior first would leave a zero
    posterior mean, but after [re_init] the posterior mean is the average
    of the old prior mean, which is not zero. *)
Lemma re_init_zero_posterior_counterexample :
  let w0 := World (direct_latent Normal.new (point [1; 1; 1]%nat 2 0)) 0%nat in
  (exists m,
      Normal.mean (FullyConnectedLatentVariable.approx_post
                     (obj (snd (Spec.re_init_prior_first w0)))) = Some m /\
      all_zero m) /\
  ~ (exists m,
      Normal.mean (FullyConnectedLatentVariable.approx_post
                     (obj (snd (FullyConnectedLatentVariable.re_init w0)))) = Some m /\
      all_zero m).
Proof.
  split.
  - eexists. split; [reflexivity |].
    constructor; [| constructor]. simpl. unfold Rsum, at_flat. simpl. lra.
  - intros (m & Hm & Hz).
    cbv in Hm. injection Hm as <-.
    inversion Hz as [| x l Hx _]; subst. simpl in Hx. lra.
Qed.

Lemma re_init_seeds_posterior_before_zeroing_prior_witness :
  exists m v lv',
    mean_dim (detach (Tensor.mk [1; 1; 1]%nat [2%R])) 1 = Ok m /\
    mean_dim (detach (Tensor.mk [1; 1; 1]%nat [0%R])) 1 = Ok v /\
    FullyConnectedLatentVariable.re_init
      (World (direct_latent Normal.new (point [1; 1; 1]%nat 2 0)) 0%nat)
    = (Ok tt, World lv' 0%nat) /\
    FullyConnectedLatentVariable.approx_post lv' = Normal.mk (Some m) (Some v) None /\
    FullyConnectedLatentVariable.prior lv'
    = Normal.mk (Some (zeros reset_shape)) (Some (zeros reset_shape)) None /\
    all_zero (zeros reset_shape) /\
    lv' = FullyConnectedLatentVariable.set_prior (Normal.re_init_value None None)
            (FullyConnectedLatentVariable.set_approx_post
               (Normal.mk (Some m) (Some v) None)
               (direct_latent Normal.new (point [1; 1; 1]%nat 2 0))).
Proof.
  apply (re_init_seeds_posterior_before_zeroing_prior
           (lv := direct_latent Normal.new (point [1; 1; 1]%nat 2 0)) 0%nat
           (pm := Tensor.mk [1; 1; 1]%nat [2%R]) (pv := Tensor.mk [1; 1; 1]%nat [0%R])).
  - reflexivity.
  - reflexivity.
  - simpl. lia.
  - simpl. lia.
Defined.




Lemma construct_rejects_unknown_model_type_witness :
  exists m c1, SVG._construct sm_mnist_config 0%nat = (Ok m, c1).
Proof.
  apply (construct_rejects_unknown_model_type 0%nat
           sm_mnist_model_type sm_mnist_inference_procedure).
  exact sm_mnist_supported.
Defined.

Lemma partitions_are_disjoint_witness :
  exists m c1 inf gen,
    SVG._construct sm_mnist_config 0%nat = (Ok m, c1) /\
    SVG.inference_parameters m = Ok inf /\
    SVG.generative_parameters m = Ok gen /\
    inf <> [] /\ gen <> [] /\
    forall q, In q inf -> ~ In q gen.
Proof.
  apply (partitions_are_disjoint iterative_config 0%nat 0%nat
           sm_mnist_model_type sm_mnist_inference_procedure sm_mnist_supported).
Defined.

(** [generate] returns on the running model. *)
Lemma running_model_generates :
  exists out w', SVG.generate false 1 (World running_model 0%nat) = (Ok out, w').
Proof. eexists _, _. vm_compute. reflexivity. Defined.

Lemma output_layer_in_neither_partition_witness :
  exists m c1 inf gen_params,
    SVG._construct sm_mnist_config 0%nat = (Ok m, c1) /\
    SVG.inference_parameters m = Ok inf /\
    SVG.generative_parameters m = Ok gen_params /\
    FullyConnectedLayer.parameters (SVG.decoder_lstm_output m) <> [] /\
    forall q, In q (FullyConnectedLayer.parameters (SVG.decoder_lstm_output m)) ->
              ~ In q inf /\ ~ In q gen_params.
Proof.
  destruct running_model_generates as (out & w' & Hg).
  apply (output_layer_in_neither_partition 0%nat
           sm_mnist_model_type sm_mnist_inference_procedure sm_mnist_supported Hg).
Defined.



End Runs.

(** * Further concrete runs *)

Section FurtherRuns.
#[local] Existing Instance Concrete.zero_learned.
#[local] Existing Instance Concrete.zero_sampling.
Import Concrete Examples.

(** One batch of two frames on the NaN model, continued at the
    breakpoint, completes. *)
Lemma nan_batch_completes :
  exists r',
    @TrainVal.train_batch unit nan_model 2 1 (fun _ => TrainVal.continue) 1 0
      two_frames (TrainVal.Run tt [])
    = (Ok tt, r').
Proof. eexists. vm_compute. reflexivity. Defined.


Lemma batch_completes_only_within_sequence_length_witness :
  exists frames batch_size rest,
    shape two_frames = frames :: batch_size :: rest /\
    (2 <= frames)%nat /\
    (Z.of_nat frames <= 2)%Z.
Proof.
  destruct nan_batch_completes as [r' Hb].
  exact (@batch_completes_only_within_sequence_length unit nan_model 2 1
           (fun _ => TrainVal.continue) 1%nat 0%nat two_frames (TrainVal.Run tt []) r'
           Hb).
Defined.

Lemma train_checks_configuration_first_witness :
  @TrainVal.train unit nan_model 2 0 (fun _ => TrainVal.continue) [two_frames]
    (TrainVal.Run tt [])
  = (Raise (AssertionError "Number of inference iterations must be positive."),
     TrainVal.Run tt ([] ++ [TrainVal.call_train])).
Proof.
  refine (proj1 (@train_checks_configuration_first unit nan_model 2 0
                   (fun _ => TrainVal.continue) [two_frames] (TrainVal.Run tt []) tt
                   eq_refl) _).
  lia.
Defined.

Lemma completed_batch_call_counts_witness :
  exists r' l,
    @TrainVal.train_batch unit nan_model 2 1 (fun _ => TrainVal.continue) 1 0
      two_frames (TrainVal.Run tt [])
    = (Ok tt, r') /\
    TrainVal.calls r' = [] ++ l /\
    Trace.occurrences Trace.is_infer l = ((2 - 1) * Z.to_nat 1)%nat /\
    Trace.occurrences Trace.is_generate l = ((2 - 1) * (Z.to_nat 1 + 2))%nat /\
    Trace.occurrences Trace.is_inf_collect l = (2 - 1)%nat /\
    Trace.steps TrainVal.inf_opt l = 1%nat /\
    Trace.steps TrainVal.gen_opt l = 1%nat.
Proof.
  destruct nan_batch_completes as [r' Hb].
  destruct (@completed_batch_call_counts unit nan_model 2 1
              (fun _ => TrainVal.continue) 1%nat 0%nat two_frames (TrainVal.Run tt [])
              r' 2%nat [1%nat] Hb eq_refl)
    as (l & Hl).
  exists r', l. split; [exact Hb | exact Hl].
Defined.


Lemma direct_infer_forgets_previous_posterior_witness :
  fst (FullyConnectedLatentVariable.infer (Tensor.mk [1; 1]%nat [0%R])
         (World (FullyConnectedLatentVariable.set_approx_post
                   (point [1; 1]%nat 1 1)
                   (direct_latent Normal.new (point [1; 1; 1]%nat 0 0))) 0%nat))
  = fst (FullyConnectedLatentVariable.infer (Tensor.mk [1; 1]%nat [0%R])
           (World (direct_latent Normal.new (point [1; 1; 1]%nat 0 0)) 0%nat)).
Proof.
  exact (proj1 (direct_infer_forgets_previous_posterior
                  (lv := direct_latent Normal.new (point [1; 1; 1]%nat 0 0))
                  (point [1; 1]%nat 1 1) (Tensor.mk [1; 1]%nat [0%R]) 0%nat eq_refl)).
Defined.

(** Direct inference returns on the concrete latent variable. *)
Lemma direct_latent_infers :
  exists out w',
    FullyConnectedLatentVariable.infer (Tensor.mk [1; 1]%nat [0%R])
      (World (direct_latent Normal.new (point [1; 1; 1]%nat 0 0)) 0%nat)
    = (Ok out, w').
Proof. eexists _, _. vm_compute. reflexivity. Defined.

Lemma posterior_parameters_after_direct_infer_witness :
  exists out w' m v,
    FullyConnectedLatentVariable.infer (Tensor.mk [1; 1]%nat [0%R])
      (World (direct_latent Normal.new (point [1; 1; 1]%nat 0 0)) 0%nat)
    = (Ok out, w') /\
    FullyConnectedLayer.forward
      (FullyConnectedLayer.mk 1 1 FullyConnectedLayer.linear 0 1)
      (Tensor.mk [1; 1]%nat [0%R])
    = Ok m /\
    FullyConnectedLayer.forward
      (FullyConnectedLayer.mk 1 1 FullyConnectedLayer.linear 2 3)
      (Tensor.mk [1; 1]%nat [0%R])
    = Ok v /\
    FullyConnectedLatentVariable.approx_posterior_parameters (obj w') = Ok [m; v].
Proof.
  destruct direct_latent_infers as (out & w' & Hi).
  destruct (posterior_parameters_after_direct_infer
              (w := World (direct_latent Normal.new (point [1; 1; 1]%nat 0 0)) 0%nat)
              eq_refl Hi)
    as (m & v & Hm & Hv & Hp).
  exists out, w', m, v. repeat split; assumption.
Defined.

Section OnZeroNetworks.
#[local] Existing Instance Concrete.zero_networks.

Lemma construct_reads_configuration_in_order_witness :
  SVG._construct ∅ 0%nat = (Raise (KeyError "model_type"), 0%nat).
Proof.
  apply (proj1 (construct_reads_configuration_in_order ∅ 0%nat)).
  apply lookup_empty.
Defined.

Lemma constructed_model_parameters_are_fresh_witness :
  exists m c1 inf gen,
    SVG._construct sm_mnist_config 0%nat = (Ok m, c1) /\
    SVG.inference_parameters m = Ok inf /\
    SVG.generative_parameters m = Ok gen /\
    NoDup (inf ++ gen ++ FullyConnectedLayer.parameters (SVG.decoder_lstm_output m)) /\
    forall q,
      In q (inf ++ gen ++ FullyConnectedLayer.parameters (SVG.decoder_lstm_output m))
      <-> (0 <= q < c1)%nat.
Proof.
  apply (constructed_model_parameters_are_fresh 0%nat
           sm_mnist_model_type sm_mnist_inference_procedure sm_mnist_supported).
Defined.

Lemma iterative_model_type :
  iterative_model_config !! "model_type" = Some (VStr "kth_actions").
Proof. apply lookup_insert_eq. Qed.

Lemma iterative_inference_procedure :
  iterative_model_config !! "inference_procedure" = Some (VStr "Iterative").
Proof.
  unfold iterative_model_config.
  rewrite lookup_insert_ne by discriminate. apply lookup_insert_eq.
Qed.

Lemma only_direct_models_can_infer_witness :
  exists m c1,
    SVG._construct iterative_model_config 0%nat = (Ok m, c1) /\
    forall (observation : tensor) (k : nat),
      SVG.infer observation (World m k) = (Raise NotImplementedError, World m k).
Proof.
  assert (Hs : Spec.supported (lower_string "kth_actions")).
  { right. left. reflexivity. }
  assert (Hp : lower_string "Iterative" <> "direct") by discriminate.
  destruct (only_direct_models_can_infer 0%nat
              iterative_model_type iterative_inference_procedure Hs Hp)
    as (m & c1 & level & Hc & _ & _ & _ & _ & _ & Hi).
  exists m, c1. split; [exact Hc | exact Hi].
Defined.

End OnZeroNetworks.

Section OnEchoNetworks.
#[local] Existing Instance Examples.echo_networks.

(** [step] returns on the model that has just encoded a frame. *)
Lemma encoded_model_steps :
  exists w', SVG.step (World encoded_model 0%nat) = (Ok tt, w').
Proof. eexists. vm_compute. reflexivity. Defined.

Lemma step_consumes_the_encoding_witness :
  exists w',
    SVG.step (World encoded_model 0%nat) = (Ok tt, w') /\
    Frame.encodings (obj w') = (None, None, Some (zeros [1; 1]%nat), Some []) /\
    fst (SVG.step w') = Raise (AttributeError "unsqueeze").
Proof.
  destruct encoded_model_steps as [w' Hs].
  destruct (step_consumes_the_encoding Hs) as (He & _ & Hagain).
  exists w'. split; [exact Hs |]. split; [exact He | exact Hagain].
Defined.

(** [infer] returns on the same model. *)
Lemma encoded_model_infers :
  exists w1,
    SVG.infer (Tensor.mk [1; 1]%nat [0%R]) (World encoded_model 0%nat) = (Ok tt, w1) /\
    exists w2, SVG.step w1 = (Ok tt, w2).
Proof.
  eexists. split.
  - vm_compute. reflexivity.
  - eexists. vm_compute. reflexivity.
Defined.

Lemma inferred_frame_becomes_previous_encoding_witness :
  exists w1 w2,
    SVG.infer (Tensor.mk [1; 1]%nat [0%R]) (World encoded_model 0%nat) = (Ok tt, w1) /\
    SVG.step w1 = (Ok tt, w2) /\
    SVG._prev_h (obj w2) = Some (zeros [1; 1]%nat) /\
    SVG._prev_skip (obj w2) = Some [].
Proof.
  destruct encoded_model_infers as (w1 & Hi & w2 & Hs).
  destruct (inferred_frame_becomes_previous_encoding Hi Hs)
    as (h & skip & Henc & Hh & Hk & _).
  simpl in Henc. injection Henc as <- <-.
  exists w1, w2. repeat split; assumption.
Defined.

End OnEchoNetworks.

End FurtherRuns.
